(** * peony-twitter: the client's item access, the request pipeline,
      the response envelope and the default error handler

    A shallow embedding of [peony/utils.py] and [peony/client.py].
    Python objects are values of one dynamically typed universe [pyval];
    a call that may raise returns a [result]; the retry loop of the error
    handler threads the state of the outside world explicitly and is run
    with fuel, since it has no bound of its own. *)

From Stdlib Require Import ZArith QArith.QArith_base Ascii String.
From stdpp Require Import gmap strings list pretty.

#[local] Set Warnings "-register-all".
Local Open Scope Z_scope.
Local Open Scope string_scope.
Local Open Scope list_scope.

(** ** Python values and builtins *)
Module Py.

(** The values that reach the modelled code.  A [dict] keeps its items in
    insertion order and is keyed by strings (only string keys are ever
    looked up by the code at hand); a [set] lists its elements, which the
    code never inspects. *)
Inductive pyval : Type :=
| PNone
| PBool (b : bool)
| PInt (n : Z)
| PStr (s : string)
| PList (xs : list pyval)
| PTuple (xs : list pyval)
| PSet (xs : list pyval)
| PDict (kvs : list (string * pyval)).

(** The exceptions the builtins used here can raise. *)
Inductive exn : Type :=
| TypeError
| ValueError
| KeyError (key : string)
| IndexError
| AttributeError
| RecursionError
| HTTPError (status : Z).

(** Outcome of a call: a value, an exception, or [Unmodelled] where the
    builtin leaves the fragment of Python that is modelled here. *)
Inductive result (A : Type) : Type :=
| Ok (a : A)
| Raise (e : exn)
| Unmodelled.
Arguments Ok {A} a.
Arguments Raise {A} e.
Arguments Unmodelled {A}.

Definition bind {A B} (r : result A) (k : A -> result B) : result B :=
  match r with
  | Ok a => k a
  | Raise e => Raise e
  | Unmodelled => Unmodelled
  end.

Notation "x <- r ;; k" := (bind r (fun x => k))
  (at level 100, r at next level, right associativity).

(** [bool(v)] *)
Definition truthy (v : pyval) : bool :=
  match v with
  | PNone => false
  | PBool b => b
  | PInt n => negb (Z.eqb n 0)
  | PStr s => negb (String.eqb s "")
  | PList xs | PTuple xs | PSet xs => negb (Nat.eqb (length xs) 0)
  | PDict kvs => negb (Nat.eqb (length kvs) 0)
  end.

(** [v is None] *)
Definition is_none (v : pyval) : bool :=
  match v with PNone => true | _ => false end.

(** [d[key]] on the items of a dict *)
Fixpoint dict_get (kvs : list (string * pyval)) (key : string) : result pyval :=
  match kvs with
  | [] => Raise (KeyError key)
  | (k, v) :: rest => if String.eqb k key then Ok v else dict_get rest key
  end.

(** [str(v)], for the values whose text does not go through [repr] of a
    container. *)
Definition str (v : pyval) : result string :=
  match v with
  | PNone => Ok "None"
  | PBool true => Ok "True"
  | PBool false => Ok "False"
  | PInt n => Ok (pretty n)
  | PStr s => Ok s
  | _ => Unmodelled
  end.

(** A text is kept as its bytes.  What Python does character by
    character (its length, its characters, the digits of a field name)
    is modelled for texts within ASCII, where bytes and characters are
    the same. *)
Fixpoint ascii_only (s : string) : bool :=
  match s with
  | EmptyString => true
  | String a rest => (nat_of_ascii a <? 128)%nat && ascii_only rest
  end.

(** the one-character strings of [s] *)
Fixpoint chars (s : string) : list pyval :=
  match s with
  | EmptyString => []
  | String a rest => PStr (String a EmptyString) :: chars rest
  end.

(** what iterating over [v] yields; a set in the order its elements are
    listed, a dict as its keys *)
Definition iterate (v : pyval) : result (list pyval) :=
  match v with
  | PList xs | PTuple xs | PSet xs => Ok xs
  | PDict kvs => Ok ((fun kv => PStr (fst kv)) <$> kvs)
  | PStr s => if ascii_only s then Ok (chars s) else Unmodelled
  | PNone | PBool _ | PInt _ => Raise TypeError
  end.

(** [len(v)] *)
Definition len (v : pyval) : result Z :=
  match v with
  | PList xs | PTuple xs | PSet xs => Ok (Z.of_nat (length xs))
  | PDict kvs => Ok (Z.of_nat (length kvs))
  | PStr s =>
      if ascii_only s then Ok (Z.of_nat (String.length s)) else Unmodelled
  | PNone | PBool _ | PInt _ => Raise TypeError
  end.

(** [xs[i]] on a sequence: a negative index counts from the end *)
Definition index (xs : list pyval) (i : Z) : result pyval :=
  let n := Z.of_nat (length xs) in
  if Z.leb 0 i && Z.ltb i n then
    match xs !! Z.to_nat i with Some v => Ok v | None => Raise IndexError end
  else if Z.leb (- n) i && Z.ltb i 0 then
    match xs !! Z.to_nat (i + n) with Some v => Ok v | None => Raise IndexError end
  else Raise IndexError.

(** [v[key]]; slices and dict keys that are not strings are left out *)
Definition getitem (v key : pyval) : result pyval :=
  match v, key with
  | PDict kvs, PStr k => dict_get kvs k
  | PDict _, _ => Unmodelled
  | (PList xs | PTuple xs), PInt i => index xs i
  | (PList xs | PTuple xs), PBool b => index xs (if b then 1 else 0)
  | PStr s, PInt i => if ascii_only s then index (chars s) i else Unmodelled
  | PStr s, PBool b =>
      if ascii_only s then index (chars s) (if b then 1 else 0) else Unmodelled
  | (PList _ | PTuple _ | PStr _), _ => Raise TypeError
  | (PNone | PBool _ | PInt _ | PSet _), _ => Raise TypeError
  end.

(** [s.endswith(suffix)] *)
Definition endswith (s suffix : string) : bool :=
  let n := String.length s in
  let k := String.length suffix in
  (k <=? n)%nat && String.eqb (String.substring (n - k) k s) suffix.

(** [s.rstrip(c)] for a one-character argument: every trailing [c] goes. *)
Fixpoint rstrip (c : ascii) (s : string) : string :=
  match s with
  | EmptyString => EmptyString
  | String a rest =>
      match rstrip c rest with
      | EmptyString => if Ascii.eqb a c then EmptyString else String a EmptyString
      | kept => String a kept
      end
  end.

(** the last character of [s], if it has one *)
Fixpoint last_char (s : string) : option ascii :=
  match s with
  | EmptyString => None
  | String a rest =>
      match rest with
      | EmptyString => Some a
      | String _ _ => last_char rest
      end
  end.

Definition is_brace (a : ascii) : bool := Ascii.eqb a "{" || Ascii.eqb a "}".

(** no brace occurs in [s] *)
Fixpoint brace_free (s : string) : bool :=
  match s with
  | EmptyString => true
  | String a rest => negb (is_brace a) && brace_free rest
  end.

(** no brace of [s] is followed by the same brace: as a template, [s]
    escapes none *)
Fixpoint escape_free (s : string) : bool :=
  match s with
  | EmptyString => true
  | String a rest =>
      match rest with
      | String b _ => negb (is_brace a && Ascii.eqb a b)
      | EmptyString => true
      end && escape_free rest
  end.

(** *** [str.format] with the keyword arguments [api] and [version]

    The scanner follows CPython's markup iterator: literal text up to a
    brace, a doubled brace as one literal brace, a single closing brace
    or a single opening brace at the end as [ValueError], and otherwise a
    replacement field that runs to the next closing brace.  Fields are
    looked up and rendered as they are met, left to right, so the first
    fault in reading order is the one raised.  Conversions ([!r]), format
    specifications ([:>8]), attribute and index access ([.x], [[0]]) and
    field names that are or may be numbers are outside the modelled
    fragment. *)

(** A byte a decimal digit may be made of: an ASCII digit, or a byte of
    a character outside ASCII, among which Unicode has decimal digits
    too.  A field name made of such bytes only may be a number. *)
Definition is_digit (a : ascii) : bool :=
  let n := nat_of_ascii a in
  ((48 <=? n)%nat && (n <=? 57)%nat) || (128 <=? n)%nat.

Fixpoint all_digits (s : string) : bool :=
  match s with
  | EmptyString => true
  | String a rest => is_digit a && all_digits rest
  end.

(** the object a field name designates among [api=..., version=...] *)
Definition get_field (api version : pyval) (name : string) : result pyval :=
  if String.eqb name "" then Raise IndexError
  else if all_digits name then Unmodelled
  else if String.eqb name "api" then Ok api
  else if String.eqb name "version" then Ok version
  else Raise (KeyError name).

Definition render_field (api version : pyval) (name : string) : result string :=
  v <- get_field api version name ;; str v.

Definition special (a : ascii) : bool :=
  Ascii.eqb a "!" || Ascii.eqb a ":" || Ascii.eqb a "." || Ascii.eqb a "[".

(** a field name that [format] reads to its end as one name: no brace
    and none of the characters that start a conversion, a format
    specification, an attribute or an index *)
Fixpoint plain (s : string) : bool :=
  match s with
  | EmptyString => true
  | String a rest => negb (is_brace a) && negb (special a) && plain rest
  end.

(** [field = None]: reading literal text; [field = Some name]: inside a
    replacement field whose name read so far is [name]. *)
Fixpoint format_from (api version : pyval) (field : option string)
    (s : string) : result string :=
  match field, s with
  | None, EmptyString => Ok ""
  | None, String a rest =>
      if Ascii.eqb a "{" then
        match rest with
        | EmptyString => Raise ValueError
        | String b rest' =>
            if Ascii.eqb b "{" then
              out <- format_from api version None rest' ;; Ok (String "{" out)
            else format_from api version (Some "") rest
        end
      else if Ascii.eqb a "}" then
        match rest with
        | EmptyString => Raise ValueError
        | String b rest' =>
            if Ascii.eqb b "}" then
              out <- format_from api version None rest' ;; Ok (String "}" out)
            else Raise ValueError
        end
      else out <- format_from api version None rest ;; Ok (String a out)
  | Some name, EmptyString => Raise ValueError
  | Some name, String a rest =>
      if Ascii.eqb a "}" then
        text <- render_field api version name ;;
        out <- format_from api version None rest ;;
        Ok (text +:+ out)
      else if Ascii.eqb a "{" then Raise ValueError
      else if special a then Unmodelled
      else format_from api version (Some (name +:+ String a "")) rest
  end.

(** [template.format(api=api, version=version)] *)
Definition format (template : string) (api version : pyval) : result string :=
  format_from api version None template.

(** [xs[start:stop]]: a negative bound counts from the end, and both are
    brought back into the sequence *)
Definition clamp (n i : Z) : Z :=
  if Z.ltb i 0 then Z.max (i + n) 0 else Z.min i n.

Definition slice {A : Type} (xs : list A) (start stop : Z) : list A :=
  let n := Z.of_nat (length xs) in
  let lo := clamp n start in
  let hi := clamp n stop in
  take (Z.to_nat (hi - lo)) (drop (Z.to_nat lo) xs).

(** [d.update({key: v})] on the items of a dict: an item with that key
    has its value replaced where it stands, a new one goes last *)
Fixpoint dict_update (kvs : list (string * pyval)) (key : string) (v : pyval)
    : list (string * pyval) :=
  match kvs with
  | [] => [(key, v)]
  | (k, w) :: rest =>
      if String.eqb k key then (k, v) :: rest
      else (k, w) :: dict_update rest key v
  end.

(** *** A template as its pieces

    A template written out piece by piece: a literal character, put down
    twice when it is a brace, or a replacement field; and the same pieces
    with every field replaced by the text of the value it names. *)
Inductive piece : Type :=
| Literal (a : ascii)
| Field (name : string).

Fixpoint written (ps : list piece) : string :=
  match ps with
  | [] => EmptyString
  | Literal a :: rest =>
      if is_brace a then String a (String a (written rest))
      else String a (written rest)
  | Field name :: rest => String "{" (name +:+ String "}" (written rest))
  end.

Fixpoint substituted (api version : pyval) (ps : list piece) : result string :=
  match ps with
  | [] => Ok EmptyString
  | Literal a :: rest =>
      out <- substituted api version rest ;; Ok (String a out)
  | Field name :: rest =>
      text <- (if String.eqb name "api" then str api
               else if String.eqb name "version" then str version
               else Raise (KeyError name)) ;;
      out <- substituted api version rest ;;
      Ok (text +:+ out)
  end.

(** every field among the pieces is one of the two that are given *)
Definition known_fields (ps : list piece) : Prop :=
  forall name, Field name ∈ ps -> name = "api" \/ name = "version".

(** *** Attributes of a plain instance

    [object.__setattr__] and [object.__delattr__], which a class gets
    when it defines neither, on the attribute dictionary of an instance
    of a class without data descriptors of its own.  [__class__],
    [__dict__] and [__weakref__] belong to the object itself and are
    left out. *)
Definition object_slots : list string :=
  ["__class__"; "__dict__"; "__weakref__"].

Definition object_setattr {V : Type} (attrs : gmap string V) (name : string)
    (v : V) : result unit * gmap string V :=
  if bool_decide (name ∈ object_slots) then (Unmodelled, attrs)
  else (Ok tt, <[name := v]> attrs).

Definition object_delattr {V : Type} (attrs : gmap string V) (name : string)
    : result unit * gmap string V :=
  if bool_decide (name ∈ object_slots) then (Unmodelled, attrs)
  else match attrs !! name with
       | Some _ => (Ok tt, delete name attrs)
       | None => (Raise AttributeError, attrs)
       end.

(** Python numbers as far as [int()] tells them apart: an [int], or a
    finite [float], whose value is a rational. *)
Inductive number : Type :=
| NInt (z : Z)
| NFloat (q : Q).

(** [int(x)]: a float is truncated towards zero. *)
Definition int (x : number) : Z :=
  match x with
  | NInt z => z
  | NFloat q => Z.quot (Qnum q) (Zpos (Qden q))
  end.

(** the exact value of a number *)
Definition value (x : number) : Q :=
  match x with
  | NInt z => inject_Z z
  | NFloat q => q
  end.

End Py.

Import Py.

(** ** peony/utils.py *)
Module utils.

(** The object protocol a response envelope forwards to.  Whatever the
    decode function returned (or the body text) answers these requests
    itself; an object that does not support one raises. *)
Class PyObject (V : Type) : Type := {
  py_getattr : V -> string -> result V;   (* getattr(v, key) *)
  py_getitem : V -> V -> result V;        (* v[key] *)
  py_iter : V -> result (list V);         (* what iter(v) yields *)
  py_str : V -> result string;            (* str(v) *)
  py_repr : V -> result string;           (* repr(v) *)
  py_len : V -> result Z                  (* len(v) *)
}.

(** *** class JSONObject

    A dict whose items read as attributes; [__getattr__] is reached only
    for names that the dict class does not define itself. *)
Module JSONObject.

Definition __getattr__ (self : list (string * pyval)) (key : string)
    : result pyval :=
  match dict_get self key with
  | Ok v => Ok v
  | _ => Raise AttributeError
  end.

(** the public methods of [dict] *)
Definition dict_methods : list string :=
  ["clear"; "copy"; "fromkeys"; "get"; "items"; "keys"; "pop";
   "popitem"; "setdefault"; "update"; "values"].

(** [__setattr__], which raises whatever it is given; [__delattr__],
    [__setitem__] and [__delitem__] are bound to the same function. *)
Definition __setattr__ (self : list (string * pyval)) (args : list pyval)
    : result pyval * list (string * pyval) :=
  (Raise AttributeError, self).

Definition __delattr__ := __setattr__.
Definition __setitem__ := __setattr__.
Definition __delitem__ := __setattr__.

(** [self.key]: what the dict class defines comes first (left out here),
    [__getattr__] serves the other names. *)
Definition getattr (self : list (string * pyval)) (key : string) : result pyval :=
  if String.prefix "__" key || bool_decide (key ∈ dict_methods)
  then Unmodelled
  else __getattr__ self key.

(** What can be asked of a [JSONObject]: reading an attribute or an
    item, the four guarded changes, and [update], which the class
    inherits from [dict] as it is. *)
Inductive request : Type :=
| GetAttr (key : string)
| GetItem (key : string)
| SetAttr (key : string) (v : pyval)
| DelAttr (key : string)
| SetItem (key : string) (v : pyval)
| DelItem (key : string)
| Update (key : string) (v : pyval).

Definition serve (self : list (string * pyval)) (q : request)
    : result pyval * list (string * pyval) :=
  match q with
  | GetAttr key => (getattr self key, self)
  | GetItem key => (dict_get self key, self)
  | SetAttr key v => __setattr__ self [PStr key; v]
  | DelAttr key => __delattr__ self [PStr key]
  | SetItem key v => __setitem__ self [PStr key; v]
  | DelItem key => __delitem__ self [PStr key]
  | Update key v => (Ok PNone, dict_update self key v)
  end.

End JSONObject.

(** The decoded payloads ([loads] builds every JSON object as a
    [JSONObject]) and body texts as such objects.  Attributes of the
    builtin classes and [repr] of strings and containers are left out. *)
#[export] Instance pyval_object : PyObject pyval := {
  py_getattr v key :=
    match v with
    | PDict kvs =>
        if String.prefix "__" key || bool_decide (key ∈ JSONObject.dict_methods)
        then Unmodelled
        else JSONObject.__getattr__ kvs key
    | _ => Unmodelled
    end;
  py_getitem := getitem;
  py_iter := iterate;
  py_str := str;
  py_repr v := match v with PStr _ => Unmodelled | _ => str v end;
  py_len := len
}.

(** *** class PeonyResponse

    An instance is its attribute dictionary.  The class defines six
    methods and overrides neither [__setattr__] nor [__delattr__], so
    attribute assignment and deletion are the ones every Python object
    inherits. *)
Module PeonyResponse.
Section methods.
Context {V : Type} `{PyObject V}.

Definition __init__ (response headers url request : V) : gmap string V :=
  <["request" := request]>
    (<["url" := url]>
       (<["headers" := headers]>
          (<["response" := response]> ∅))).

(** [self.response] as the methods read it.  Should the attribute be
    missing, the lookup falls to [__getattr__], which reads
    [self.response] again, without end. *)
Definition response (self : gmap string V) : result V :=
  match self !! "response" with
  | Some v => Ok v
  | None => Raise RecursionError
  end.

Definition __getattr__ (self : gmap string V) (key : string) : result V :=
  r <- response self ;; py_getattr r key.

Definition __getitem__ (self : gmap string V) (key : V) : result V :=
  r <- response self ;; py_getitem r key.

Definition __iter__ (self : gmap string V) : result (list V) :=
  r <- response self ;; py_iter r.

Definition __str__ (self : gmap string V) : result string :=
  r <- response self ;; py_str r.

Definition __repr__ (self : gmap string V) : result string :=
  r <- response self ;; py_repr r.

Definition __len__ (self : gmap string V) : result Z :=
  r <- response self ;; py_len r.

(** [self.name]: the instance dictionary first, [__getattr__] only
    when the name is not there.  Names of the class itself (its
    methods, [__class__], [__dict__]) are left out. *)
Definition getattr (self : gmap string V) (name : string) : result V :=
  match self !! name with
  | Some v => Ok v
  | None => if String.prefix "__" name then Unmodelled
            else __getattr__ self name
  end.

(** Everything a holder of an envelope can ask of it. *)
Inductive request : Type :=
| GetAttr (name : string)
| GetItem (key : V)
| Iter
| Str
| Repr
| Len
| SetAttr (name : string) (v : V)
| DelAttr (name : string).

Inductive answer : Type :=
| Value (v : V)
| Items (vs : list V)
| Text (s : string)
| Length (n : Z)
| Done.


(** One request served: the answer and the envelope afterwards.  The
    six methods of the class answer the reads; assignment and deletion,
    which the class does not define, are those of [object]. *)
Definition serve (self : gmap string V) (q : request)
    : result answer * gmap string V :=
  match q with
  | GetAttr name => (v <- getattr self name ;; Ok (Value v), self)
  | GetItem key => (v <- __getitem__ self key ;; Ok (Value v), self)
  | Iter => (vs <- __iter__ self ;; Ok (Items vs), self)
  | Str => (s <- __str__ self ;; Ok (Text s), self)
  | Repr => (s <- __repr__ self ;; Ok (Text s), self)
  | Len => (n <- __len__ self ;; Ok (Length n), self)
  | SetAttr name v =>
      (_ <- fst (object_setattr self name v) ;; Ok Done,
       snd (object_setattr self name v))
  | DelAttr name =>
      (_ <- fst (object_delattr self name) ;; Ok Done,
       snd (object_delattr self name))
  end.



End methods.
End PeonyResponse.

(** *** class handler_decorator *)
Module handler_decorator.

(** [self(request, error_handling=True)], with [__wrapped__] the
    decorated handler. *)
Definition __call__ {C : Type} (__wrapped__ : C -> C) (request : C)
    (error_handling : bool) : C :=
  if error_handling then __wrapped__ request else request.

End handler_decorator.

(** *** error_handler

    A request is an operation on the outside world: run in a state it
    ends in one [outcome] and leaves a new state.  The three [except]
    clauses tell apart a rate limit, a timeout (raised by the request or
    by the [aiohttp.Timeout] block around it) and everything else.

    No time passes in this model: whether the [aiohttp.Timeout] block
    fires is part of the outcome of the call it surrounds.  That is right
    for the call of an operation ([invoke]); around a request that is
    itself a retry loop the block would also time the sleeps of that
    loop, which is not modelled, so nothing is stated about a handler
    applied twice. *)
Section error_handling.
Context {St V E : Type}.

Inductive outcome : Type :=
| Returned (v : V)
| RateLimitExceeded (reset_in : number)
| TimeoutError
| Failed (e : E).

(** outcomes after which the loop goes round again *)
Definition retried (o : outcome) : bool :=
  match o with
  | RateLimitExceeded _ | TimeoutError => true
  | Returned _ | Failed _ => false
  end.

(** What an observer sees of a run. *)
Inductive event : Type :=
| Invoked                   (* the wrapped operation was called *)
| Traceback                 (* traceback.print_exc(file=sys.stderr) *)
| Printed (msg : string)    (* print(msg, file=sys.stderr) *)
| Slept (delay : Z).        (* await asyncio.sleep(delay) *)

(** An awaitable call, run with fuel: [None] when the fuel runs out
    before the call is over. *)
Definition coroutine : Type :=
  nat -> St -> option (outcome * St * list event).

(** A call of the operation itself. *)
Definition invoke (f : St -> outcome * St) : coroutine :=
  fun _ s => Some (f s, [Invoked]).

Definition after (pre : list event)
    (r : option (outcome * St * list event))
    : option (outcome * St * list event) :=
  match r with
  | Some (o, s, evs) => Some (o, s, pre ++ evs)
  | None => None
  end.

(** The [while True] loop; one unit of fuel per turn. *)
Fixpoint decorated_request (request : coroutine) (fuel : nat) (s : St)
    : option (outcome * St * list event) :=
  match fuel with
  | O => None
  | S fuel' =>
      match request fuel' s with
      | None => None
      | Some (Returned v, s', evs) => Some (Returned v, s', evs)
      | Some (RateLimitExceeded reset_in, s', evs) =>
          let delay := int reset_in + 1 in
          after (evs ++ [Traceback;
                         Printed ("sleeping for " +:+ pretty delay +:+ "s");
                         Slept delay])
                (decorated_request request fuel' s')
      | Some (TimeoutError, s', evs) =>
          after (evs ++ [Printed "Request timed out, retrying"])
                (decorated_request request fuel' s')
      | Some (Failed e, s', evs) => Some (Failed e, s', evs)
      end
  end.

(** [error_handler] is [handler_decorator] applied to the function
    that returns [decorated_request]. *)
Definition error_handler (request : coroutine) (error_handling : bool)
    : coroutine :=
  handler_decorator.__call__ decorated_request request error_handling.

(** how many times the operation was called *)
Fixpoint invocations (evs : list event) : nat :=
  match evs with
  | [] => 0
  | Invoked :: rest => S (invocations rest)
  | _ :: rest => invocations rest
  end.

(** the seconds slept in a run *)
Fixpoint slept (evs : list event) : Z :=
  match evs with
  | [] => 0
  | Slept delay :: rest => delay + slept rest
  | _ :: rest => slept rest
  end.

(** the lines printed in a run *)
Fixpoint printed (evs : list event) : list string :=
  match evs with
  | [] => []
  | Printed msg :: rest => msg :: printed rest
  | _ :: rest => printed rest
  end.

(** the sleep an outcome calls for *)
Definition wait_of (o : outcome) : Z :=
  match o with
  | RateLimitExceeded reset_in => int reset_in + 1
  | _ => 0
  end.

(** the sleeps the first [k] calls of [f] from [s] call for *)
Fixpoint total_wait (f : St -> outcome * St) (k : nat) (s : St) : Z :=
  match k with
  | O => 0
  | S k' => wait_of (fst (f s)) + total_wait f k' (snd (f s))
  end.

(** the state after [k] calls of [f] from [s] *)
Fixpoint state_after (f : St -> outcome * St) (k : nat) (s : St) : St :=
  match k with
  | O => s
  | S k' => state_after f k' (snd (f s))
  end.

End error_handling.
Arguments outcome : clear implicits.
Arguments coroutine : clear implicits.

(** Two operations to run the handler on; the state of the world is the
    number of calls made so far.  The first times out twice before it
    answers, the second is rate limited once. *)
Definition times_out_twice (calls : nat) : outcome Z exn * nat :=
  (if (calls <? 2)%nat then TimeoutError else Returned 42, S calls).

Definition always_times_out (calls : nat) : outcome Z exn * nat :=
  (TimeoutError, S calls).

(** rate limited, then timed out, then refused *)
Definition fails_three_ways (calls : nat) : outcome Z exn * nat :=
  (match calls with
   | 0%nat => RateLimitExceeded (NFloat (5 # 2))
   | 1%nat => TimeoutError
   | _ => Failed (HTTPError 404)
   end, S calls).

Definition rate_limited_once (reset_in : number) (calls : nat)
    : outcome Z exn * nat :=
  (match calls with
   | O => RateLimitExceeded reset_in
   | S _ => Returned 42
   end, S calls).

(** *** get_args

    The part of a function's code object that is read: the number of
    positional parameters, and the names of the local variables, which
    start with those of the parameters. *)
Record code : Type := {
  co_argcount : nat;
  co_varnames : list string
}.

Definition get_args (func : code) (skip : Z) : list string :=
  slice (co_varnames func) skip (Z.of_nat (co_argcount func)).

End utils.

(** ** peony/client.py *)
Module client.
Import utils.

(** The path objects of [api.py], as the constructor calls that make
    them: [APIPath([base_url], suffix=suffix, client=self)] and its
    streaming counterpart.  The client they point back to is the one
    that was indexed. *)
Inductive BaseAPIPath : Type :=
| APIPath (path : list string) (suffix : pyval)
| StreamingAPIPath (path : list string) (suffix : pyval).

Definition suffix_of (p : BaseAPIPath) : pyval :=
  match p with
  | APIPath _ suffix | StreamingAPIPath _ suffix => suffix
  end.

Definition streams (p : BaseAPIPath) : bool :=
  match p with
  | StreamingAPIPath _ _ => true
  | APIPath _ _ => false
  end.

Definition path_of (p : BaseAPIPath) : list string :=
  match p with
  | APIPath path _ | StreamingAPIPath path _ => path
  end.

(** The response object of the HTTP library: its status, headers and
    final URL, and the two ways of reading its body, [json(loads=f)]
    and [text()]. *)
Module ClientResponse.
Record t : Type := {
  status : Z;
  headers : pyval;
  url : pyval;
  json : (string -> result pyval) -> result pyval;
  text : result pyval
}.
End ClientResponse.

(** *** class BasePeonyClient *)
Module BasePeonyClient.

(** The attributes [__init__] sets, and [self.headers.prepare_request]
    of the OAuth base class.  [streaming_apis] holds subdomain
    names. *)
Record t : Type := {
  streaming_apis : gset string;
  base_url : pyval;
  api_version : pyval;
  _suffix : pyval;
  _loads : string -> result pyval;
  prepare_request : string -> string -> pyval -> pyval -> result pyval
}.

Definition defaults (self : t) : list pyval :=
  [PNone; api_version self; _suffix self; base_url self].

Definition keys : list string := ["api"; "version"; "suffix"; "base_url"].

(** [[values[key] for key in keys]] *)
Fixpoint lookup_all (kvs : list (string * pyval)) (ks : list string)
    : result (list pyval) :=
  match ks with
  | [] => Ok []
  | k :: rest =>
      v <- dict_get kvs k ;;
      vs <- lookup_all kvs rest ;;
      Ok (v :: vs)
  end.

(** [values += (None,) * (len(keys) - len(values))] when shorter *)
Definition pad (values : list pyval) : list pyval :=
  if (length values <? length keys)%nat
  then values ++ replicate (length keys - length values) PNone
  else values.

(** the comprehension over [zip(values, defaults)] *)
Definition fill (values defaults : list pyval) : list pyval :=
  (fun vd : pyval * pyval => if is_none (fst vd) then snd vd else fst vd)
    <$> List.filter
          (fun vd : pyval * pyval => negb (is_none (fst vd) && is_none (snd vd)))
          (zip values defaults).

(** What position [i] of a sequence [xs] of overrides comes to: the
    override, or the default where the override is omitted or [None]. *)
Definition chosen (self : t) (xs : list pyval) (i : nat) : pyval :=
  let override := nth i xs PNone in
  if is_none override then nth i (defaults self) PNone else override.

(** The [if]/[elif] chain: what [values] is bound to afterwards. *)
Definition rebind (self : t) (values : pyval) : result pyval :=
  match values with
  | PDict kvs => vs <- lookup_all kvs keys ;; Ok (PList vs)
  | PSet _ => Raise TypeError
  | PStr s => Ok (PList (PStr s :: tail (defaults self)))
  | _ =>
      if truthy values then
        match values with
        | PList xs | PTuple xs => Ok (PList (fill (pad xs) (defaults self)))
        | _ => Raise TypeError
        end
      else Ok values
  end.

(** [api, version, suffix, base_url = values] *)
Definition unpack (values : pyval)
    : result (pyval * pyval * pyval * pyval) :=
  xs <- iterate values ;;
  match xs with
  | [api; version; suffix; base_url] => Ok (api, version, suffix, base_url)
  | _ => Raise ValueError
  end.

Definition resolve (self : t) (values : pyval)
    : result (pyval * pyval * pyval * pyval) :=
  vs <- rebind self values ;; unpack vs.

(** [base_url.format(api=api, version=version).rstrip('/')] *)
Definition format_base_url (base_url api version : pyval) : result string :=
  match base_url with
  | PStr template =>
      url <- format template api version ;; Ok (rstrip "/" url)
  | _ => Raise AttributeError
  end.

(** [api in self.streaming_apis]; an [api] that is a container is left
    out (whether it can be looked up depends on its hashability). *)
Definition is_streaming (self : t) (api : pyval) : result bool :=
  match api with
  | PStr s => Ok (bool_decide (s ∈ streaming_apis self))
  | PNone | PBool _ | PInt _ => Ok false
  | _ => Unmodelled
  end.

Definition __getitem__ (self : t) (values : pyval) : result BaseAPIPath :=
  r <- resolve self values ;;
  match r with
  | (api, version, suffix, base_url) =>
      base_url <- format_base_url base_url api version ;;
      streaming <- is_streaming self api ;;
      if streaming : bool
      then Ok (StreamingAPIPath [base_url] suffix)
      else Ok (APIPath [base_url] suffix)
  end.

(** The method [__getattr__], which Python calls for [client.api] only
    after the normal lookup has found no attribute of that name. *)
Definition __getattr__ (self : t) (api : string) : result BaseAPIPath :=
  __getitem__ self (PStr api).

(** the test [json or url.endswith(".json") and json is not None] *)
Definition decodes_json (url : string) (json : pyval) : bool :=
  truthy json || (endswith url ".json" && negb (is_none json)).

Section general.
(** The constants of [general.py]: the streaming subdomains, the base URL
    template and the API version of Twitter. *)
Variable general_streaming_apis : gset string.
Variables twitter_base_api_url twitter_api_version : string.

(** [__init__], as far as the attributes above go: an argument left out
    or given as [None] falls back on the constant, except [suffix],
    which is stored as given. *)
Definition __init__ (streaming_apis : option (gset string))
    (base_url api_version suffix : pyval)
    (loads : string -> result pyval)
    (prepare_request : string -> string -> pyval -> pyval -> result pyval)
    : t := {|
  streaming_apis :=
    match streaming_apis with
    | None => general_streaming_apis
    | Some subdomains => subdomains
    end;
  base_url := if is_none base_url then PStr twitter_base_api_url else base_url;
  api_version :=
    if is_none api_version then PStr twitter_api_version else api_version;
  _suffix := suffix;
  _loads := loads;
  prepare_request := prepare_request
|}.
End general.

Section request.
(** [session.request], called with [req_kwargs], of the HTTP library, and
    [exceptions.throw], which raises the exception that fits the
    response. *)
Variable session_request : pyval -> result ClientResponse.t.
Variable throw : ClientResponse.t -> exn.

Definition request (self : t) (method url : string)
    (headers json kwargs : pyval) : result (gmap string pyval) :=
  req_kwargs <- prepare_request self method url headers kwargs ;;
  response <- session_request req_kwargs ;;
  if Z.eqb (ClientResponse.status response / 100) 2 then
    content <- (if decodes_json url json
                then ClientResponse.json response (_loads self)
                else ClientResponse.text response) ;;
    Ok (PeonyResponse.__init__ content
          (ClientResponse.headers response)
          (ClientResponse.url response)
          req_kwargs)
  else Raise (throw response).
End request.

End BasePeonyClient.

(** A client set up for the Twitter API, a decode function that keeps the
    text it is given, and a transport that answers every request with
    one fixed response. *)
Definition sample_loads (body : string) : result pyval :=
  Ok (PDict [("decoded", PStr body)]).

Definition sample_client : BasePeonyClient.t := {|
  BasePeonyClient.streaming_apis := {["stream"; "userstream"; "sitestream"]};
  BasePeonyClient.base_url := PStr "https://{api}.twitter.com/{version}";
  BasePeonyClient.api_version := PStr "1.1";
  BasePeonyClient._suffix := PStr ".json";
  BasePeonyClient._loads := sample_loads;
  BasePeonyClient.prepare_request := fun method url headers kwargs =>
    Ok (PDict [("method", PStr method); ("url", PStr url); ("headers", headers)])
|}.

Definition sample_response (status : Z) (body : string) : ClientResponse.t := {|
  ClientResponse.status := status;
  ClientResponse.headers := PDict [("content-type", PStr "application/json")];
  ClientResponse.url := PStr "https://api.twitter.com/1.1/help/configuration.json";
  ClientResponse.json := fun loads => loads body;
  ClientResponse.text := Ok (PStr body)
|}.

Definition sample_throw (response : ClientResponse.t) : exn :=
  HTTPError (ClientResponse.status response).

(** the payload of the envelope a request came back with *)
Definition content_of (r : result (gmap string pyval)) : result pyval :=
  envelope <- r ;; PeonyResponse.response envelope.

End client.

(** * Properties *)

Import utils client.

(** ** Builtins on sample inputs *)

Example format_default :
  format "https://{api}.twitter.com/{version}/" (PStr "api") (PStr "1.1")
  = Ok "https://api.twitter.com/1.1/".
Proof. reflexivity. Qed.

Example format_escape : format "{{x}}{version}" PNone (PInt 2) = Ok "{x}2".
Proof. reflexivity. Qed.

Example format_unknown : format "a{foo}}" PNone PNone = Raise (KeyError "foo").
Proof. reflexivity. Qed.

Example format_single : format "a}" PNone PNone = Raise ValueError.
Proof. reflexivity. Qed.

Example rstrip_slashes : rstrip "/" "a/b//" = "a/b".
Proof. reflexivity. Qed.

Example endswith_json :
  endswith "https://api.twitter.com/1.1/help.json" ".json" = true
  /\ endswith "json" ".json" = false.
Proof. split; reflexivity. Qed.

(** ** The default error handler *)
Section error_handler_properties.
Context {St V E : Type}.
Implicit Types (f : St -> outcome V E * St) (s : St).

Lemma state_after_succ f k s :
  state_after f (S k) s = snd (f (state_after f k s)).
Proof.
  revert s; induction k as [|k IH]; intros s; [reflexivity|].
  change (state_after f (S (S k)) s) with (state_after f (S k) (snd (f s))).
  rewrite IH. reflexivity.
Qed.

Lemma invocations_app (evs evs' : list event) :
  invocations (evs ++ evs') = (invocations evs + invocations evs')%nat.
Proof.
  induction evs as [|ev evs IH]; [reflexivity|].
  destruct ev; simpl; rewrite IH; reflexivity.
Qed.

(** One turn of the loop on an outcome that is retried: only the
    bookkeeping of that turn, none of which is a call, precedes the rest
    of the run. *)
Lemma decorated_request_turn f s fuel :
  retried (fst (f s)) = true ->
  exists pre, invocations pre = 1%nat /\
    decorated_request (invoke f) (S fuel) s
    = after pre (decorated_request (invoke f) fuel (snd (f s))).
Proof.
  intros Hr. simpl. unfold invoke.
  destruct (f s) as [o s']; simpl in *.
  destruct o; try discriminate; eexists; (split; [|reflexivity]); reflexivity.
Qed.

(** One turn of the loop on an outcome that ends it. *)
Lemma decorated_request_last f s fuel :
  retried (fst (f s)) = false ->
  decorated_request (invoke f) (S fuel) s = Some (f s, [Invoked]).
Proof.
  intros Hr. simpl. unfold invoke.
  destruct (f s) as [o s']; simpl in *.
  destruct o; try discriminate; reflexivity.
Qed.

(** [N] retried outcomes in a row and then one that is not: the loop
    ends with that outcome, having called the operation [N + 1] times. *)
Lemma decorated_request_run f N : forall s fuel,
  (forall k, (k < N)%nat -> retried (fst (f (state_after f k s))) = true) ->
  retried (fst (f (state_after f N s))) = false ->
  (N < fuel)%nat ->
  exists evs,
    decorated_request (invoke f) fuel s
    = Some (f (state_after f N s), evs)
    /\ invocations evs = S N.
Proof.
  induction N as [|N IH]; intros s fuel Hpre Hlast Hfuel.
  - destruct fuel as [|fuel]; [lia|].
    exists [Invoked]. split; [|reflexivity].
    apply decorated_request_last. exact Hlast.
  - destruct fuel as [|fuel]; [lia|].
    destruct (decorated_request_turn f s fuel) as (pre & Hn & Heq).
    { apply (Hpre 0%nat). lia. }
    destruct (IH (snd (f s)) fuel) as (evs & Hrun & Hcount).
    + intros k Hk. apply (Hpre (S k)). lia.
    + exact Hlast.
    + lia.
    + exists (pre ++ evs). split.
      * rewrite Heq, Hrun.
        change (state_after f (S N) s) with (state_after f N (snd (f s))).
        destruct (f (state_after f N (snd (f s)))) as [o s']. reflexivity.
      * rewrite invocations_app, Hn, Hcount. reflexivity.
Qed.

(** C3.  With error handling enabled, an operation that times out [N]
    times and then succeeds makes the wrapped call return that result
    after exactly [N + 1] calls of the operation; and a failure that is
    neither a timeout nor a rate limit leaves the wrapper unchanged at
    the call that raised it, which is the last one. *)
Theorem error_handler_timeouts_then_result f s (N : nat) (fuel : nat) :
  (forall k, (k < N)%nat -> fst (f (state_after f k s)) = TimeoutError) ->
  (N < fuel)%nat ->
  (forall v, fst (f (state_after f N s)) = Returned v ->
     exists evs,
       error_handler (invoke f) true fuel s
       = Some (Returned v, state_after f (S N) s, evs)
       /\ invocations evs = S N)
  /\ (forall e, fst (f (state_after f N s)) = Failed e ->
     exists evs,
       error_handler (invoke f) true fuel s
       = Some (Failed e, state_after f (S N) s, evs)
       /\ invocations evs = S N)
  /\ (forall e s', f s = (Failed e, s') ->
       error_handler (invoke f) true fuel s = Some (Failed e, s', [Invoked])).
Proof.
  intros Hpre Hfuel.
  assert (Hretried : forall k, (k < N)%nat ->
            retried (fst (f (state_after f k s))) = true).
  { intros k Hk. rewrite (Hpre k Hk). reflexivity. }
  unfold error_handler, handler_decorator.__call__.
  repeat split.
  - intros v Hv.
    destruct (decorated_request_run f N s fuel Hretried) as (evs & Hrun & Hn);
      [rewrite Hv; reflexivity | exact Hfuel |].
    exists evs. split; [|exact Hn].
    rewrite Hrun, state_after_succ.
    destruct (f (state_after f N s)) as [o s']; simpl in *; subst o; reflexivity.
  - intros e He.
    destruct (decorated_request_run f N s fuel Hretried) as (evs & Hrun & Hn);
      [rewrite He; reflexivity | exact Hfuel |].
    exists evs. split; [|exact Hn].
    rewrite Hrun, state_after_succ.
    destruct (f (state_after f N s)) as [o s']; simpl in *; subst o; reflexivity.
  - intros e s' Hf.
    destruct fuel as [|fuel]; [lia|].
    rewrite decorated_request_last; rewrite Hf; reflexivity.
Qed.

(** [int] drops less than one second of a wait that is not negative. *)
Lemma int_truncates (x : number) :
  Qle 0 (value x) ->
  Qle (inject_Z (int x)) (value x) /\ Qlt (value x) (inject_Z (int x + 1)).
Proof.
  destruct x as [z|[a b]]; unfold Qle, Qlt; simpl.
  - intros _. lia.
  - intros Ha. rewrite Z.mul_1_r in Ha.
    rewrite Z.quot_div_nonneg by lia.
    pose proof (Z.div_mod a (Z.pos b)) as Hdiv.
    pose proof (Z.mod_pos_bound a (Z.pos b)) as Hmod.
    nia.
Qed.

(** C4, as the code has it.  A rate-limited call is followed by a sleep
    of [int(reset_in) + 1] seconds, and only then by the rest of the
    run, which starts with the next call.  The wait is [reset_in + 1]
    when [reset_in] is an int; for a reset interval that is not
    negative it exceeds [reset_in] and is at most [reset_in + 1]. *)
Theorem error_handler_rate_limit_wait f s (reset_in : number) s' (fuel : nat) :
  f s = (RateLimitExceeded reset_in, s') ->
  error_handler (invoke f) true (S fuel) s
  = after [Invoked; Traceback;
           Printed ("sleeping for " +:+ pretty (int reset_in + 1) +:+ "s");
           Slept (int reset_in + 1)]
          (error_handler (invoke f) true fuel s')
  /\ (forall z, reset_in = NInt z -> int reset_in + 1 = z + 1)
  /\ (Qle 0 (value reset_in) ->
      Qlt (value reset_in) (inject_Z (int reset_in + 1))
      /\ Qle (inject_Z (int reset_in + 1)) (Qplus (value reset_in) (inject_Z 1))).
Proof.
  intros Hf. repeat split.
  - unfold error_handler, handler_decorator.__call__. simpl.
    unfold invoke. rewrite Hf. reflexivity.
  - intros z ->. reflexivity.
  - apply int_truncates. assumption.
  - destruct (int_truncates reset_in) as [Hle _]; [assumption|].
    rewrite inject_Z_plus. apply Qplus_le_l. exact Hle.
Qed.

(** C5.  With [error_handling] false the decorator hands back the very
    operation it was given, whatever the handler: calling the result is
    one call of the operation, with its outcome — a result or any
    failure — and its effect on the world as they are. *)
Theorem handler_decorator_disabled
    (handler : coroutine St V E -> coroutine St V E)
    (request : coroutine St V E) f s (fuel : nat) :
  handler_decorator.__call__ handler request false = request
  /\ error_handler request false = request
  /\ handler_decorator.__call__ handler (invoke f) false fuel s
     = Some (f s, [Invoked])
  /\ invocations ([Invoked] : list event) = 1%nat.
Proof. repeat split. Qed.

End error_handler_properties.

(** ** The response envelope *)
Section envelope_properties.
Context {V : Type} `{PyObject V}.

Lemma init_response (payload headers url request : V) :
  PeonyResponse.response (PeonyResponse.__init__ payload headers url request)
  = Ok payload.
Proof.
  unfold PeonyResponse.response, PeonyResponse.__init__.
  by simplify_map_eq.
Qed.

(** C9.  Indexing, iterating, taking the length, the string and the
    representation of an envelope, and reading an attribute it does not
    have itself, are the same request made of the wrapped payload; the
    envelope's own response, headers, url and request read back as
    constructed. *)
Theorem envelope_delegates (payload headers url request key : V) (name : string) :
  let envelope := PeonyResponse.__init__ payload headers url request in
  PeonyResponse.__getitem__ envelope key = py_getitem payload key
  /\ PeonyResponse.__iter__ envelope = py_iter payload
  /\ PeonyResponse.__len__ envelope = py_len payload
  /\ PeonyResponse.__str__ envelope = py_str payload
  /\ PeonyResponse.__repr__ envelope = py_repr payload
  /\ PeonyResponse.__getattr__ envelope name = py_getattr payload name
  /\ PeonyResponse.getattr envelope "response" = Ok payload
  /\ PeonyResponse.getattr envelope "headers" = Ok headers
  /\ PeonyResponse.getattr envelope "url" = Ok url
  /\ PeonyResponse.getattr envelope "request" = Ok request.
Proof.
  intros envelope. subst envelope.
  unfold PeonyResponse.__getitem__, PeonyResponse.__iter__,
    PeonyResponse.__len__, PeonyResponse.__str__, PeonyResponse.__repr__,
    PeonyResponse.__getattr__.
  rewrite init_response. simpl.
  repeat split; unfold PeonyResponse.getattr, PeonyResponse.__init__;
    by simplify_map_eq.
Qed.




End envelope_properties.

(** ** Strings: suffixes, stripping, braces *)

Lemma endswith_last_char (s : string) (c : ascii) :
  endswith s (String c EmptyString)
  = match last_char s with
    | Some a => Ascii.eqb a c
    | None => false
    end.
Proof.
  unfold endswith.
  induction s as [|a rest IH]; [reflexivity|].
  destruct rest as [|b rest'].
  - simpl. destruct (Ascii.eqb a c); reflexivity.
  - change (last_char (String a (String b rest'))) with (last_char (String b rest')).
    rewrite <- IH. simpl String.length.
    simpl. rewrite !Nat.sub_0_r. reflexivity.
Qed.

Lemma rstrip_last_char (c : ascii) (s : string) :
  match last_char (rstrip c s) with
  | Some a => Ascii.eqb a c = false
  | None => True
  end.
Proof.
  induction s as [|a rest IH]; [exact I|].
  simpl. destruct (rstrip c rest) as [|k kept].
  - destruct (Ascii.eqb a c) eqn:Hac; [exact I | exact Hac].
  - exact IH.
Qed.

(** What is left after stripping does not end with the stripped
    character. *)
Lemma rstrip_not_endswith (c : ascii) (s : string) :
  endswith (rstrip c s) (String c EmptyString) = false.
Proof.
  rewrite endswith_last_char.
  pose proof (rstrip_last_char c s) as Hlast.
  destruct (last_char (rstrip c s)); [exact Hlast | reflexivity].
Qed.

Lemma brace_free_app (s t : string) :
  brace_free (s +:+ t) = brace_free s && brace_free t.
Proof.
  induction s as [|a s IH]; [reflexivity|].
  simpl. rewrite IH. destruct (is_brace a); reflexivity.
Qed.

Lemma rstrip_brace_free (c : ascii) (s : string) :
  brace_free s = true -> brace_free (rstrip c s) = true.
Proof.
  induction s as [|a rest IH]; [reflexivity|].
  simpl. intros Hs. apply andb_prop in Hs as [Ha Hrest].
  specialize (IH Hrest).
  destruct (rstrip c rest) as [|k kept].
  - destruct (Ascii.eqb a c); [reflexivity|]. simpl. rewrite Ha. reflexivity.
  - change (brace_free (String a (String k kept)))
      with (negb (is_brace a) && brace_free (String k kept)).
    rewrite Ha, IH. reflexivity.
Qed.

Lemma escape_free_tail (a : ascii) (rest : string) :
  escape_free (String a rest) = true -> escape_free rest = true.
Proof. simpl. intros Hs. apply andb_prop in Hs as [_ Hrest]. exact Hrest. Qed.

Section format_properties.
Variables api version : pyval.
Hypothesis api_text : forall t, str api = Ok t -> brace_free t = true.
Hypothesis version_text : forall t, str version = Ok t -> brace_free t = true.

Lemma render_field_brace_free (name text : string) :
  render_field api version name = Ok text -> brace_free text = true.
Proof.
  unfold render_field, get_field.
  destruct (String.eqb name ""); [discriminate|].
  destruct (all_digits name); [discriminate|].
  destruct (String.eqb name "api"); [apply api_text|].
  destruct (String.eqb name "version"); [apply version_text|].
  discriminate.
Qed.

(** A template that escapes no brace turns into text whose braces, if
    any, come from the texts of [api] and [version]. *)
Lemma format_from_brace_free (s : string) : forall field out,
  escape_free s = true ->
  format_from api version field s = Ok out ->
  brace_free out = true.
Proof.
  induction s as [|a rest IH]; intros field out Hs Hout.
  - destruct field; simpl in Hout; [discriminate|].
    injection Hout as <-. reflexivity.
  - pose proof (escape_free_tail a rest Hs) as Hrest.
    destruct field as [name|]; simpl in Hout.
    + destruct (Ascii.eqb a "}") eqn:Hclose.
      * destruct (render_field api version name) as [text| |] eqn:Htext;
          simpl in Hout; try discriminate.
        destruct (format_from api version None rest) as [out'| |] eqn:Hout';
          simpl in Hout; try discriminate.
        injection Hout as <-. rewrite brace_free_app.
        rewrite (render_field_brace_free name text Htext).
        rewrite (IH None out' Hrest Hout'). reflexivity.
      * destruct (Ascii.eqb a "{"); [discriminate|].
        destruct (special a); [discriminate|].
        exact (IH _ out Hrest Hout).
    + destruct (Ascii.eqb a "{") eqn:Hopen.
      * destruct rest as [|b rest']; [discriminate|].
        destruct (Ascii.eqb b "{") eqn:Hb.
        -- apply Ascii.eqb_eq in Hopen, Hb. subst a b.
           simpl in Hs. discriminate.
        -- exact (IH _ out Hrest Hout).
      * destruct (Ascii.eqb a "}") eqn:Hclose.
        -- destruct rest as [|b rest']; [discriminate|].
           destruct (Ascii.eqb b "}") eqn:Hb; [|discriminate].
           apply Ascii.eqb_eq in Hclose, Hb. subst a b.
           simpl in Hs. discriminate.
        -- destruct (format_from api version None rest) as [out'| |] eqn:Hout';
             simpl in Hout; try discriminate.
           injection Hout as <-. simpl.
           unfold is_brace. rewrite Hopen, Hclose. simpl.
           exact (IH None out' Hrest Hout').
Qed.

End format_properties.

(** ** Item access on the client *)
Section getitem_properties.
Variable self : BasePeonyClient.t.

(** C7.  A set as the access argument raises [TypeError], whatever its
    elements, and so no path object comes out of the access. *)
Theorem getitem_set_rejected (elements : list pyval) :
  BasePeonyClient.__getitem__ self (PSet elements) = Raise TypeError
  /\ forall p, BasePeonyClient.__getitem__ self (PSet elements) <> Ok p.
Proof. split; [reflexivity | discriminate]. Qed.

Lemma dict_get_cases (kvs : list (string * pyval)) (key : string) :
  (exists v, dict_get kvs key = Ok v) \/ dict_get kvs key = Raise (KeyError key).
Proof.
  induction kvs as [|[k v] kvs IH]; simpl; [right; reflexivity|].
  destruct (String.eqb k key); [left; eauto | exact IH].
Qed.

Ltac missing_key k :=
  exists k; split; [unfold BasePeonyClient.keys; repeat constructor|];
  split; reflexivity.

(** C10.  A dict is read at the keys [api], [version], [suffix] and
    [base_url] and nowhere else: their values are taken as they are, a
    [None] among them included, and the client's defaults play no part;
    a missing key raises [KeyError] for the first one missing. *)
Theorem getitem_dict_verbatim (kvs : list (string * pyval)) :
  (forall api version suffix base_url,
     dict_get kvs "api" = Ok api ->
     dict_get kvs "version" = Ok version ->
     dict_get kvs "suffix" = Ok suffix ->
     dict_get kvs "base_url" = Ok base_url ->
     BasePeonyClient.resolve self (PDict kvs)
     = Ok (api, version, suffix, base_url))
  /\ (forall key, key ∈ BasePeonyClient.keys ->
      dict_get kvs key = Raise (KeyError key) ->
      exists missing, missing ∈ BasePeonyClient.keys
        /\ BasePeonyClient.resolve self (PDict kvs) = Raise (KeyError missing)
        /\ BasePeonyClient.__getitem__ self (PDict kvs) = Raise (KeyError missing))
  /\ (forall other : BasePeonyClient.t,
      BasePeonyClient.resolve other (PDict kvs)
      = BasePeonyClient.resolve self (PDict kvs)).
Proof.
  split; [|split].
  - intros api version suffix base_url Ha Hv Hs Hb.
    unfold BasePeonyClient.resolve, BasePeonyClient.rebind. simpl.
    rewrite Ha, Hv, Hs, Hb. reflexivity.
  - intros key Hkey Hmiss.
    unfold BasePeonyClient.__getitem__, BasePeonyClient.resolve,
      BasePeonyClient.rebind. simpl.
    destruct (dict_get_cases kvs "api") as [[a Ha]|Ha]; rewrite Ha; simpl;
      [|missing_key "api"].
    destruct (dict_get_cases kvs "version") as [[v Hv]|Hv]; rewrite Hv; simpl;
      [|missing_key "version"].
    destruct (dict_get_cases kvs "suffix") as [[x Hx]|Hx]; rewrite Hx; simpl;
      [|missing_key "suffix"].
    destruct (dict_get_cases kvs "base_url") as [[b Hb]|Hb]; rewrite Hb; simpl;
      [|missing_key "base_url"].
    exfalso. unfold BasePeonyClient.keys in Hkey.
    repeat (apply elem_of_cons in Hkey as [->|Hkey]; [congruence|]).
    by apply elem_of_nil in Hkey.
  - intros other. reflexivity.
Qed.

Lemma pad_positions (xs : list pyval) :
  (1 <= length xs <= 4)%nat ->
  BasePeonyClient.pad xs
  = [nth 0 xs PNone; nth 1 xs PNone; nth 2 xs PNone; nth 3 xs PNone].
Proof.
  intros Hlen.
  destruct xs as [|a [|b [|c [|d [|e rest]]]]]; simpl in Hlen; try lia;
    reflexivity.
Qed.

(** A pair passes the filter of the comprehension when what it comes to
    is not [None]. *)
Lemma kept_of_chosen (value default : pyval) :
  is_none (if is_none value then default else value) = false ->
  negb (is_none value && is_none default) = true.
Proof.
  destruct (is_none value) eqn:Hvalue; simpl; [|reflexivity].
  intros ->. reflexivity.
Qed.

Lemma fill_positions (x0 x1 x2 x3 d0 d1 d2 d3 : pyval) :
  let pick (x d : pyval) := if is_none x then d else x in
  is_none (pick x0 d0) = false ->
  is_none (pick x1 d1) = false ->
  is_none (pick x2 d2) = false ->
  is_none (pick x3 d3) = false ->
  BasePeonyClient.fill [x0; x1; x2; x3] [d0; d1; d2; d3]
  = [pick x0 d0; pick x1 d1; pick x2 d2; pick x3 d3].
Proof.
  intros pick H0 H1 H2 H3. unfold BasePeonyClient.fill. simpl.
  rewrite (kept_of_chosen x0 d0 H0), (kept_of_chosen x1 d1 H1),
    (kept_of_chosen x2 d2 H2), (kept_of_chosen x3 d3 H3).
  reflexivity.
Qed.

(** C2, as the code has it.  A list or tuple of one to four overrides,
    none of whose positions comes to [None], resolves position by
    position to the override, or to the client's default where the
    override is omitted or [None]; a path object on the formatted base
    URL follows. *)
Theorem getitem_sequence_defaults (xs : list pyval) :
  (1 <= length xs <= 4)%nat ->
  (forall i, (i < 4)%nat -> is_none (BasePeonyClient.chosen self xs i) = false) ->
  let api := BasePeonyClient.chosen self xs 0 in
  let version := BasePeonyClient.chosen self xs 1 in
  let suffix := BasePeonyClient.chosen self xs 2 in
  let base_url := BasePeonyClient.chosen self xs 3 in
  BasePeonyClient.resolve self (PList xs) = Ok (api, version, suffix, base_url)
  /\ BasePeonyClient.resolve self (PTuple xs) = Ok (api, version, suffix, base_url)
  /\ forall url streaming,
       BasePeonyClient.format_base_url base_url api version = Ok url ->
       BasePeonyClient.is_streaming self api = Ok streaming ->
       let p := if streaming then StreamingAPIPath [url] suffix
                else APIPath [url] suffix in
       BasePeonyClient.__getitem__ self (PList xs) = Ok p
       /\ BasePeonyClient.__getitem__ self (PTuple xs) = Ok p.
Proof.
  intros Hlen Hsome api version suffix base_url.
  assert (Hfill : BasePeonyClient.fill (BasePeonyClient.pad xs)
                    (BasePeonyClient.defaults self)
                  = [api; version; suffix; base_url]).
  { rewrite (pad_positions xs Hlen). unfold BasePeonyClient.defaults.
    apply fill_positions.
    - exact (Hsome 0%nat ltac:(lia)).
    - exact (Hsome 1%nat ltac:(lia)).
    - exact (Hsome 2%nat ltac:(lia)).
    - exact (Hsome 3%nat ltac:(lia)). }
  assert (Htruthy : forall seq : list pyval -> pyval,
            seq = PList \/ seq = PTuple -> truthy (seq xs) = true).
  { intros seq [-> | ->]; destruct xs; simpl in *; try lia; reflexivity. }
  assert (Hlist : BasePeonyClient.resolve self (PList xs)
                  = Ok (api, version, suffix, base_url)).
  { unfold BasePeonyClient.resolve, BasePeonyClient.rebind.
    rewrite (Htruthy PList) by (left; reflexivity). rewrite Hfill. reflexivity. }
  assert (Htuple : BasePeonyClient.resolve self (PTuple xs)
                   = Ok (api, version, suffix, base_url)).
  { unfold BasePeonyClient.resolve, BasePeonyClient.rebind.
    rewrite (Htruthy PTuple) by (right; reflexivity). rewrite Hfill. reflexivity. }
  split; [exact Hlist|]. split; [exact Htuple|].
  intros url streaming Hurl Hstream p.
  unfold BasePeonyClient.__getitem__.
  rewrite Hlist, Htuple. simpl. rewrite Hurl. simpl. rewrite Hstream. simpl.
  subst p. destruct streaming; split; reflexivity.
Qed.

(** Whenever an access yields a path object, its base URL is the
    template, formatted with the resolved [api] and [version] and
    stripped of trailing slashes: it never ends with a slash, and when
    the template escapes no brace and the texts of [api] and [version]
    hold none, no brace is left in it. *)
Lemma getitem_base_url_shape (values : pyval) (p : BaseAPIPath) :
  BasePeonyClient.__getitem__ self values = Ok p ->
  exists api version suffix template url,
    BasePeonyClient.resolve self values = Ok (api, version, suffix, PStr template)
    /\ format template api version = Ok url
    /\ path_of p = [rstrip "/" url]
    /\ endswith (rstrip "/" url) "/" = false
    /\ (escape_free template = true ->
        (forall t, str api = Ok t -> brace_free t = true) ->
        (forall t, str version = Ok t -> brace_free t = true) ->
        brace_free (rstrip "/" url) = true).
Proof.
  unfold BasePeonyClient.__getitem__. intros Hp.
  destruct (BasePeonyClient.resolve self values)
    as [[[[api version] suffix] base_url]| |]; simpl in Hp; try discriminate.
  destruct base_url as [| | |template| | | |]; simpl in Hp; try discriminate.
  destruct (format template api version) as [url| |] eqn:Hurl;
    simpl in Hp; try discriminate.
  exists api, version, suffix, template, url.
  split; [reflexivity|]. split; [exact Hurl|]. split.
  - destruct (BasePeonyClient.is_streaming self api) as [[|]| |];
      simpl in Hp; try discriminate; injection Hp as <-; reflexivity.
  - split; [apply rstrip_not_endswith|].
    intros Hesc Hapi Hversion. apply rstrip_brace_free.
    exact (format_from_brace_free api version Hapi Hversion template None url
             Hesc Hurl).
Qed.

End getitem_properties.

(** ** The request pipeline *)
Section request_properties.
Variable session_request : pyval -> result ClientResponse.t.
Variable throw : ClientResponse.t -> exn.
Variable self : BasePeonyClient.t.

(** C1, as the code has it.  On a 2xx response the body is decoded with
    the client's [loads] when the [json] flag is truthy, and also when
    the flag is falsy without being [None] — [False], the default — and
    the URL ends with [.json]; it is read as text when the flag is
    [None], or is falsy and the URL does not end with [.json].  Either
    way the content is wrapped with the response's headers and URL and
    the prepared request. *)
Theorem request_content_decoding (method url : string)
    (headers json kwargs req_kwargs : pyval) (response : ClientResponse.t) :
  BasePeonyClient.prepare_request self method url headers kwargs = Ok req_kwargs ->
  session_request req_kwargs = Ok response ->
  200 <= ClientResponse.status response < 300 ->
  let envelope (content : result pyval) : result (gmap string pyval) :=
    c <- content ;;
    Ok (PeonyResponse.__init__ c (ClientResponse.headers response)
          (ClientResponse.url response) req_kwargs) in
  let decoded :=
    envelope (ClientResponse.json response (BasePeonyClient._loads self)) in
  let plain := envelope (ClientResponse.text response) in
  let answer :=
    BasePeonyClient.request session_request throw self method url headers
      json kwargs in
  (truthy json = true -> answer = decoded)
  /\ (truthy json = false -> is_none json = false ->
      endswith url ".json" = true -> answer = decoded)
  /\ (is_none json = true -> answer = plain)
  /\ (truthy json = false -> endswith url ".json" = false -> answer = plain).
Proof.
  intros Hreq Hresp Hstatus envelope decoded plain answer.
  assert (H2xx : Z.eqb (ClientResponse.status response / 100) 2 = true).
  { apply Z.eqb_eq.
    assert (2 <= ClientResponse.status response / 100 < 3); [|lia].
    split; [apply Z.div_le_lower_bound | apply Z.div_lt_upper_bound]; lia. }
  assert (Hanswer : answer
            = envelope (if BasePeonyClient.decodes_json url json
                        then ClientResponse.json response (BasePeonyClient._loads self)
                        else ClientResponse.text response)).
  { subst answer envelope. unfold BasePeonyClient.request.
    rewrite Hreq. simpl. rewrite Hresp. simpl. rewrite H2xx. reflexivity. }
  rewrite Hanswer. unfold BasePeonyClient.decodes_json.
  repeat split.
  - intros ->. reflexivity.
  - intros -> -> ->. reflexivity.
  - intros Hnone. destruct json; try discriminate. simpl.
    rewrite andb_false_r. reflexivity.
  - intros -> ->. reflexivity.
Qed.

End request_properties.

(** ** The properties on sample inputs *)

Lemma request_content_decoding_witness :
  BasePeonyClient.request (fun _ => Ok (sample_response 200 "{}")) sample_throw
    sample_client "GET" "https://api.twitter.com/1.1/help/configuration.json"
    PNone (PBool true) (PDict [])
  = Ok (PeonyResponse.__init__ (PDict [("decoded", PStr "{}")])
          (PDict [("content-type", PStr "application/json")])
          (PStr "https://api.twitter.com/1.1/help/configuration.json")
          (PDict [("method", PStr "GET");
                  ("url", PStr "https://api.twitter.com/1.1/help/configuration.json");
                  ("headers", PNone)])).
Proof.
  destruct (request_content_decoding
              (fun _ => Ok (sample_response 200 "{}")) sample_throw sample_client
              "GET" "https://api.twitter.com/1.1/help/configuration.json"
              PNone (PBool true) (PDict []) _ (sample_response 200 "{}")
              eq_refl eq_refl ltac:(simpl; lia)) as (Htrue & _).
  rewrite (Htrue eq_refl). reflexivity.
Defined.

(** C1 as stated fails: a flag passed as [False] does not keep the body
    of a [.json] URL as text (it is decoded), and a flag passed as
    [None] does not let it be decoded (it stays text). *)
Lemma request_false_flag_decodes :
  let ask json :=
    content_of
      (BasePeonyClient.request (fun _ => Ok (sample_response 200 "{}"))
         sample_throw sample_client "GET"
         "https://api.twitter.com/1.1/help/configuration.json"
         PNone json (PDict [])) in
  ask (PBool false) = Ok (PDict [("decoded", PStr "{}")])
  /\ ask (PBool false) <> Ok (PStr "{}")
  /\ ask PNone = Ok (PStr "{}")
  /\ ask PNone <> Ok (PDict [("decoded", PStr "{}")]).
Proof.
  assert (Hfalse : content_of
            (BasePeonyClient.request (fun _ => Ok (sample_response 200 "{}"))
               sample_throw sample_client "GET"
               "https://api.twitter.com/1.1/help/configuration.json"
               PNone (PBool false) (PDict []))
          = Ok (PDict [("decoded", PStr "{}")])).
  { unfold content_of. simpl. apply init_response. }
  assert (Hnone : content_of
            (BasePeonyClient.request (fun _ => Ok (sample_response 200 "{}"))
               sample_throw sample_client "GET"
               "https://api.twitter.com/1.1/help/configuration.json"
               PNone PNone (PDict []))
          = Ok (PStr "{}")).
  { unfold content_of. simpl. apply init_response. }
  cbv beta zeta. rewrite Hfalse, Hnone. repeat split; discriminate.
Qed.

Example times_out_twice_run :
  error_handler (invoke times_out_twice) true 3%nat 0%nat
  = Some (Returned 42, 3%nat,
          [Invoked; Printed "Request timed out, retrying";
           Invoked; Printed "Request timed out, retrying";
           Invoked]).
Proof. reflexivity. Qed.

Example times_out_twice_out_of_fuel :
  error_handler (invoke times_out_twice) true 2%nat 0%nat = None.
Proof. reflexivity. Qed.

Lemma error_handler_timeouts_then_result_witness :
  (forall k, (k < 2)%nat ->
     fst (times_out_twice (state_after times_out_twice k 0%nat)) = TimeoutError)
  /\ exists evs,
       error_handler (invoke times_out_twice) true 3%nat 0%nat
       = Some (Returned 42, 3%nat, evs)
       /\ invocations evs = 3%nat.
Proof.
  assert (Htimeouts : forall k, (k < 2)%nat ->
            fst (times_out_twice (state_after times_out_twice k 0%nat))
            = TimeoutError).
  { intros [|[|k]] Hk; [reflexivity | reflexivity | lia]. }
  split; [exact Htimeouts|].
  destruct (error_handler_timeouts_then_result times_out_twice 0%nat 2%nat 3%nat
              Htimeouts ltac:(lia)) as (Hreturned & _ & _).
  exact (Hreturned 42 eq_refl).
Defined.

Lemma error_handler_rate_limit_wait_witness :
  error_handler (invoke (rate_limited_once (NInt 5))) true 2%nat 0%nat
  = Some (Returned 42, 2%nat,
          [Invoked; Traceback; Printed "sleeping for 6s"; Slept 6; Invoked]).
Proof.
  destruct (error_handler_rate_limit_wait (rate_limited_once (NInt 5))
              0%nat (NInt 5) 1%nat 1%nat eq_refl) as (Hrun & _ & _).
  rewrite Hrun. reflexivity.
Defined.

(** C4 as stated fails: with five and a half seconds to the reset the
    handler sleeps six seconds, which is not [reset_in + 1]. *)
Lemma rate_limit_wait_is_truncated :
  error_handler (invoke (rate_limited_once (NFloat (11 # 2)))) true 2%nat 0%nat
  = Some (Returned 42, 2%nat,
          [Invoked; Traceback; Printed "sleeping for 6s"; Slept 6; Invoked])
  /\ ~ Qeq (inject_Z 6) (Qplus (value (NFloat (11 # 2))) (inject_Z 1)).
Proof.
  split; [reflexivity|].
  unfold Qeq. simpl. discriminate.
Qed.



Example envelope_of_list :
  let envelope :=
    PeonyResponse.__init__ (PList [PInt 1; PInt 2]) (PDict []) (PStr "u") (PDict []) in
  PeonyResponse.__getitem__ envelope (PInt (-1)) = Ok (PInt 2)
  /\ PeonyResponse.__len__ envelope = Ok 2
  /\ PeonyResponse.__iter__ envelope = Ok [PInt 1; PInt 2]
  /\ PeonyResponse.__getitem__ envelope (PInt 2) = Raise IndexError.
Proof.
  intros envelope.
  unfold PeonyResponse.__getitem__, PeonyResponse.__len__, PeonyResponse.__iter__.
  unfold envelope. rewrite init_response. repeat split.
Qed.

Lemma getitem_sequence_defaults_witness :
  BasePeonyClient.resolve sample_client (PList [PStr "stream"; PNone; PStr ".xml"])
  = Ok (PStr "stream", PStr "1.1", PStr ".xml",
        PStr "https://{api}.twitter.com/{version}")
  /\ BasePeonyClient.__getitem__ sample_client
       (PTuple [PStr "stream"; PNone; PStr ".xml"])
     = Ok (StreamingAPIPath ["https://stream.twitter.com/1.1"] (PStr ".xml")).
Proof.
  assert (Hsome : forall i, (i < 4)%nat ->
            is_none (BasePeonyClient.chosen sample_client
                       [PStr "stream"; PNone; PStr ".xml"] i) = false).
  { intros [|[|[|[|i]]]] Hi; try reflexivity; lia. }
  destruct (getitem_sequence_defaults sample_client
              [PStr "stream"; PNone; PStr ".xml"]
              ltac:(simpl; lia) Hsome) as (Hlist & _ & Hpath).
  split; [exact Hlist|].
  destruct (Hpath "https://stream.twitter.com/1.1" true eq_refl
              ltac:(vm_compute; reflexivity)) as (_ & Htuple).
  exact Htuple.
Defined.

(** C2 as stated fails: with no overrides at all nothing takes its
    default, since an empty list or tuple cannot be unpacked. *)
Lemma getitem_empty_sequence_raises :
  BasePeonyClient.__getitem__ sample_client (PTuple []) = Raise ValueError
  /\ BasePeonyClient.__getitem__ sample_client (PList []) = Raise ValueError
  /\ BasePeonyClient.__getitem__ sample_client (PList [PNone; PStr "2"])
     = Raise ValueError.
Proof. repeat split. Qed.

Lemma getitem_dict_verbatim_witness :
  BasePeonyClient.resolve sample_client
    (PDict [("api", PStr "api"); ("version", PNone); ("suffix", PNone);
            ("base_url", PStr "https://{api}.example.org"); ("extra", PInt 1)])
  = Ok (PStr "api", PNone, PNone, PStr "https://{api}.example.org").
Proof.
  destruct (getitem_dict_verbatim sample_client
              [("api", PStr "api"); ("version", PNone); ("suffix", PNone);
               ("base_url", PStr "https://{api}.example.org"); ("extra", PInt 1)])
    as (Hverbatim & _ & _).
  exact (Hverbatim _ _ _ _ eq_refl eq_refl eq_refl eq_refl).
Defined.

Example getitem_dict_missing_key :
  BasePeonyClient.__getitem__ sample_client
    (PDict [("api", PStr "api"); ("version", PStr "1.1")])
  = Raise (KeyError "suffix").
Proof. reflexivity. Qed.

Example getitem_dict_none_base_url :
  BasePeonyClient.__getitem__ sample_client
    (PDict [("api", PStr "api"); ("version", PNone); ("suffix", PNone);
            ("base_url", PNone)])
  = Raise AttributeError.
Proof. reflexivity. Qed.

(** * Further properties *)

(** ** The retry loop: every outcome, the sleeps, and when it never ends *)
Section retry_loop_properties.
Context {St V E : Type}.
Implicit Types (f : St -> outcome V E * St) (s : St).

Lemma slept_app (evs evs' : list event) :
  slept (evs ++ evs') = slept evs + slept evs'.
Proof.
  induction evs as [|ev evs IH]; [reflexivity|].
  destruct ev; simpl; rewrite IH; lia.
Qed.

Lemma printed_app (evs evs' : list event) :
  printed (evs ++ evs') = printed evs ++ printed evs'.
Proof.
  induction evs as [|ev evs IH]; [reflexivity|].
  destruct ev; simpl; rewrite IH; reflexivity.
Qed.

(** A turn on a retried outcome: one call, and the sleep that outcome
    calls for, before the rest of the run. *)
Lemma decorated_request_turn_wait f s fuel :
  retried (fst (f s)) = true ->
  exists pre,
    invocations pre = 1%nat
    /\ slept pre = wait_of (fst (f s))
    /\ decorated_request (invoke f) (S fuel) s
       = after pre (decorated_request (invoke f) fuel (snd (f s))).
Proof.
  intros Hr. simpl. unfold invoke.
  destruct (f s) as [o s']; simpl in *.
  destruct o; try discriminate; eexists;
    (split; [|split; [|reflexivity]]); simpl; try reflexivity; lia.
Qed.

Lemma decorated_request_turn_timeout f s fuel :
  fst (f s) = TimeoutError ->
  decorated_request (invoke f) (S fuel) s
  = after [Invoked; Printed "Request timed out, retrying"]
          (decorated_request (invoke f) fuel (snd (f s))).
Proof.
  intros Ho. simpl. unfold invoke.
  destruct (f s) as [o s']; simpl in *. subst o. reflexivity.
Qed.

(** X1.  Rate limits and timeouts in any order, [N] of them, and then an
    outcome of another kind: the wrapped call ends with that outcome and
    in the state the operation left, after [N + 1] calls, having slept
    [int(reset_in) + 1] seconds for each rate limit and not at all for
    the timeouts. *)
Theorem error_handler_retries_until_outcome f (N : nat) : forall s (fuel : nat),
  (forall k, (k < N)%nat -> retried (fst (f (state_after f k s))) = true) ->
  retried (fst (f (state_after f N s))) = false ->
  (N < fuel)%nat ->
  exists evs,
    error_handler (invoke f) true fuel s = Some (f (state_after f N s), evs)
    /\ invocations evs = S N
    /\ slept evs = total_wait f N s.
Proof.
  unfold error_handler, handler_decorator.__call__.
  induction N as [|N IH]; intros s fuel Hpre Hlast Hfuel.
  - destruct fuel as [|fuel]; [lia|].
    exists [Invoked]. split; [|split; reflexivity].
    apply decorated_request_last. exact Hlast.
  - destruct fuel as [|fuel]; [lia|].
    destruct (decorated_request_turn_wait f s fuel) as (pre & Hn & Hw & Heq).
    { apply (Hpre 0%nat). lia. }
    destruct (IH (snd (f s)) fuel) as (evs & Hrun & Hcount & Hslept).
    + intros k Hk. apply (Hpre (S k)). lia.
    + exact Hlast.
    + lia.
    + exists (pre ++ evs). split; [|split].
      * rewrite Heq, Hrun.
        change (state_after f (S N) s) with (state_after f N (snd (f s))).
        destruct (f (state_after f N (snd (f s)))) as [o s']. reflexivity.
      * rewrite invocations_app, Hn, Hcount. reflexivity.
      * rewrite slept_app, Hw, Hslept. reflexivity.
Qed.

(** X2.  An operation that goes on failing with rate limits or timeouts
    is called again without end: whatever the fuel, the wrapped call has
    not come back. *)
Theorem error_handler_never_gives_up f : forall (fuel : nat) s,
  (forall k, retried (fst (f (state_after f k s))) = true) ->
  error_handler (invoke f) true fuel s = None.
Proof.
  unfold error_handler, handler_decorator.__call__.
  induction fuel as [|fuel IH]; intros s Hall; [reflexivity|].
  destruct (decorated_request_turn f s fuel) as (pre & _ & Heq).
  { exact (Hall 0%nat). }
  rewrite Heq, IH; [reflexivity|].
  intros k. exact (Hall (S k)).
Qed.

(** X3.  Timeouts are retried at once: after [N] of them and a result,
    the run has printed the one line [Request timed out, retrying] per
    timeout, nothing else, and has not slept. *)
Theorem error_handler_timeouts_do_not_sleep f (N : nat) : forall s (fuel : nat),
  (forall k, (k < N)%nat -> fst (f (state_after f k s)) = TimeoutError) ->
  retried (fst (f (state_after f N s))) = false ->
  (N < fuel)%nat ->
  exists evs,
    error_handler (invoke f) true fuel s = Some (f (state_after f N s), evs)
    /\ printed evs = replicate N "Request timed out, retrying"
    /\ slept evs = 0.
Proof.
  unfold error_handler, handler_decorator.__call__.
  induction N as [|N IH]; intros s fuel Hpre Hlast Hfuel.
  - destruct fuel as [|fuel]; [lia|].
    exists [Invoked]. split; [|split; reflexivity].
    apply decorated_request_last. exact Hlast.
  - destruct fuel as [|fuel]; [lia|].
    destruct (IH (snd (f s)) fuel) as (evs & Hrun & Hprinted & Hslept).
    + intros k Hk. apply (Hpre (S k)). lia.
    + exact Hlast.
    + lia.
    + exists ([Invoked; Printed "Request timed out, retrying"] ++ evs).
      split; [|split].
      * rewrite decorated_request_turn_timeout by (apply (Hpre 0%nat); lia).
        rewrite Hrun.
        change (state_after f (S N) s) with (state_after f N (snd (f s))).
        destruct (f (state_after f N (snd (f s)))) as [o s']. reflexivity.
      * simpl. rewrite Hprinted. reflexivity.
      * simpl. exact Hslept.
Qed.

(** X4.  Whatever the wrapped call comes back with is the outcome of the
    last call of the operation, and is neither a rate limit nor a
    timeout; every call before the last ended in one of those two. *)
Theorem error_handler_outcome_is_final f : forall (fuel : nat) s o s' evs,
  error_handler (invoke f) true fuel s = Some (o, s', evs) ->
  retried o = false
  /\ exists N : nat,
       (N < fuel)%nat
       /\ invocations evs = S N
       /\ f (state_after f N s) = (o, s')
       /\ forall k, (k < N)%nat -> retried (fst (f (state_after f k s))) = true.
Proof.
  unfold error_handler, handler_decorator.__call__.
  induction fuel as [|fuel IH]; intros s o s' evs Hrun; [discriminate|].
  destruct (retried (fst (f s))) eqn:Hr.
  - destruct (decorated_request_turn f s fuel Hr) as (pre & Hn & Heq).
    rewrite Heq in Hrun.
    destruct (decorated_request (invoke f) fuel (snd (f s)))
      as [[[o1 s1] evs1]|] eqn:Hrest; simpl in Hrun; [|discriminate].
    injection Hrun as <- <- <-.
    destruct (IH _ _ _ _ Hrest) as (Ho & N & HN & Hcount & Hlast & Hbefore).
    split; [exact Ho|]. exists (S N). repeat split.
    + lia.
    + rewrite invocations_app, Hn, Hcount. reflexivity.
    + exact Hlast.
    + intros [|k] Hk; [exact Hr|]. apply Hbefore. lia.
  - rewrite decorated_request_last in Hrun by exact Hr.
    injection Hrun as Hf <-.
    split; [rewrite Hf in Hr; exact Hr|].
    exists 0%nat. repeat split; [lia | exact Hf | intros k Hk; lia].
Qed.

End retry_loop_properties.

(** ** JSONObject *)

Lemma dict_update_get (kvs : list (string * pyval)) (key : string) (v : pyval) :
  dict_get (dict_update kvs key v) key = Ok v.
Proof.
  induction kvs as [|[k w] kvs IH]; simpl.
  - rewrite String.eqb_refl. reflexivity.
  - destruct (String.eqb k key) eqn:Hk; simpl; rewrite Hk; [reflexivity | exact IH].
Qed.

Lemma dict_update_get_other (kvs : list (string * pyval)) (key other : string)
    (v : pyval) :
  other <> key ->
  dict_get (dict_update kvs key v) other = dict_get kvs other.
Proof.
  intros Hne.
  induction kvs as [|[k w] kvs IH]; simpl.
  - destruct (String.eqb key other) eqn:Hk; [|reflexivity].
    apply String.eqb_eq in Hk. congruence.
  - destruct (String.eqb k key) eqn:Hk; simpl.
    + apply String.eqb_eq in Hk. subst k.
      destruct (String.eqb key other) eqn:Hko; [|reflexivity].
      apply String.eqb_eq in Hko. congruence.
    + destruct (String.eqb k other); [reflexivity | exact IH].
Qed.

(** X6.  The guard does not reach [update], which [JSONObject] inherits
    from [dict]: it is accepted, the new value is what the item and the
    attribute of that name read afterwards, and no other item changes. *)
Theorem JSONObject_update_gets_through (self : list (string * pyval))
    (key other : string) (v : pyval) :
  String.prefix "__" key = false ->
  key ∉ JSONObject.dict_methods ->
  other <> key ->
  let updated := JSONObject.serve self (JSONObject.Update key v) in
  fst updated = Ok PNone
  /\ JSONObject.serve (snd updated) (JSONObject.GetItem key) = (Ok v, snd updated)
  /\ JSONObject.serve (snd updated) (JSONObject.GetAttr key) = (Ok v, snd updated)
  /\ dict_get (snd updated) other = dict_get self other.
Proof.
  intros Hdunder Hmethod Hother updated. subst updated. simpl.
  split; [reflexivity|]. split; [|split].
  - rewrite dict_update_get. reflexivity.
  - unfold JSONObject.getattr, JSONObject.__getattr__.
    rewrite Hdunder, bool_decide_eq_false_2 by exact Hmethod. simpl.
    rewrite dict_update_get. reflexivity.
  - apply dict_update_get_other. exact Hother.
Qed.

(** ** An envelope around a JSON object *)

(** X7.  For an envelope whose payload is a JSON object, an item of the
    payload is read through the envelope by index, and by attribute as
    well unless the name is one of the envelope's own four, which stand
    in front of the payload's. *)
Theorem envelope_of_json_object (kvs : list (string * pyval))
    (headers url request : pyval) (key : string) (v : pyval) :
  let envelope := PeonyResponse.__init__ (PDict kvs) headers url request in
  dict_get kvs key = Ok v ->
  String.prefix "__" key = false ->
  key ∉ JSONObject.dict_methods ->
  PeonyResponse.__getitem__ envelope (PStr key) = Ok v
  /\ (key ∉ ["response"; "headers"; "url"; "request"] ->
      PeonyResponse.getattr envelope key = Ok v)
  /\ (key = "response" -> PeonyResponse.getattr envelope key = Ok (PDict kvs))
  /\ (key = "headers" -> PeonyResponse.getattr envelope key = Ok headers)
  /\ (key = "url" -> PeonyResponse.getattr envelope key = Ok url)
  /\ (key = "request" -> PeonyResponse.getattr envelope key = Ok request).
Proof.
  intros envelope Hitem Hdunder Hmethod. subst envelope.
  split; [|split].
  - unfold PeonyResponse.__getitem__. rewrite init_response. simpl. exact Hitem.
  - intros Hown.
    apply not_elem_of_cons in Hown as [H1 Hown].
    apply not_elem_of_cons in Hown as [H2 Hown].
    apply not_elem_of_cons in Hown as [H3 Hown].
    apply not_elem_of_cons in Hown as [H4 _].
    unfold PeonyResponse.getattr.
    assert (Hfresh : PeonyResponse.__init__ (PDict kvs) headers url request !! key
                     = None).
    { unfold PeonyResponse.__init__. by simplify_map_eq. }
    rewrite Hfresh, Hdunder.
    unfold PeonyResponse.__getattr__. rewrite init_response. simpl.
    rewrite Hdunder, bool_decide_eq_false_2 by exact Hmethod. simpl.
    unfold JSONObject.__getattr__. rewrite Hitem. reflexivity.
  - repeat split; intros ->;
      unfold PeonyResponse.getattr, PeonyResponse.__init__; by simplify_map_eq.
Qed.

(** ** get_args *)

(** X8.  With a skip that is not negative, [get_args] gives the names of
    the positional parameters without the first [skip] of them — none
    when [skip] reaches their number — and never the name of another
    local variable. *)
Theorem get_args_skips_leading (func : code) (skip : Z) :
  0 <= skip ->
  (co_argcount func <= length (co_varnames func))%nat ->
  let parameters := take (co_argcount func) (co_varnames func) in
  get_args func skip = drop (Z.to_nat skip) parameters
  /\ length (get_args func skip) = (co_argcount func - Z.to_nat skip)%nat
  /\ (forall name, name ∈ get_args func skip -> name ∈ parameters).
Proof.
  intros Hskip Hargs parameters.
  assert (Heq : get_args func skip = drop (Z.to_nat skip) parameters).
  { subst parameters. unfold get_args, slice, clamp.
    destruct (Z.ltb_spec skip 0) as [Hneg|_]; [lia|].
    destruct (Z.ltb_spec (Z.of_nat (co_argcount func)) 0) as [Hneg|_]; [lia|].
    rewrite (Z.min_l (Z.of_nat (co_argcount func))) by lia.
    destruct (Z.le_gt_cases skip (Z.of_nat (co_argcount func))) as [Hle|Hgt].
    - rewrite Z.min_l by lia.
      rewrite take_drop_commute. f_equal. f_equal. lia.
    - assert (Hnone : Z.to_nat
                (Z.of_nat (co_argcount func)
                 - Z.min skip (Z.of_nat (length (co_varnames func)))) = 0%nat)
        by lia.
      rewrite Hnone. simpl.
      symmetry. apply drop_ge. rewrite length_take. lia. }
  split; [exact Heq|]. split.
  - rewrite Heq. subst parameters. rewrite length_drop, length_take. lia.
  - intros name Hname. rewrite Heq in Hname.
    exact (subseteq_drop _ _ _ Hname).
Qed.

(** ** Item access: which path, which errors *)
Section getitem_further_properties.
Variable self : BasePeonyClient.t.

(** The pairs the comprehension runs over: position by position the
    override, [None] where there is none, and the default; overrides
    past the fourth are not looked at. *)
Lemma zip_pad_positions (xs : list pyval) (d0 d1 d2 d3 : pyval) :
  zip (BasePeonyClient.pad xs) [d0; d1; d2; d3]
  = [(nth 0 xs PNone, d0); (nth 1 xs PNone, d1);
     (nth 2 xs PNone, d2); (nth 3 xs PNone, d3)].
Proof.
  destruct xs as [|a [|b [|c [|d [|e rest]]]]]; reflexivity.
Qed.

Lemma unpack_wrong_length (l : list pyval) :
  length l <> 4%nat -> BasePeonyClient.unpack (PList l) = Raise ValueError.
Proof.
  intros Hlen.
  destruct l as [|a [|b [|c [|d [|e rest]]]]]; simpl in Hlen;
    try reflexivity; lia.
Qed.

Lemma filter_drops_one {A : Type} (keep : A -> bool) (l : list A) (x : A) :
  In x l -> keep x = false ->
  (length (List.filter keep l) < length l)%nat.
Proof.
  induction l as [|y l IH]; simpl; [tauto|].
  intros [-> | Hin] Hx.
  - rewrite Hx. pose proof (List.filter_length_le keep l). lia.
  - specialize (IH Hin Hx). destruct (keep y); simpl; lia.
Qed.

Lemma sequence_rebound (xs : list pyval) :
  xs <> [] ->
  BasePeonyClient.rebind self (PList xs)
  = Ok (PList (BasePeonyClient.fill (BasePeonyClient.pad xs)
                 (BasePeonyClient.defaults self)))
  /\ BasePeonyClient.rebind self (PTuple xs)
     = Ok (PList (BasePeonyClient.fill (BasePeonyClient.pad xs)
                    (BasePeonyClient.defaults self))).
Proof.
  intros Hxs. destruct xs as [|x xs]; [congruence|]. split; reflexivity.
Qed.

(** X9.  The path an access yields is a streaming path exactly when the
    resolved [api] is a string that belongs to the client's streaming
    subdomains, a plain one otherwise, and it carries the resolved
    suffix. *)
Theorem getitem_streaming_iff (values : pyval) (p : BaseAPIPath) :
  BasePeonyClient.__getitem__ self values = Ok p ->
  exists api version suffix base_url,
    BasePeonyClient.resolve self values = Ok (api, version, suffix, base_url)
    /\ suffix_of p = suffix
    /\ (streams p = true
        <-> exists s, api = PStr s /\ s ∈ BasePeonyClient.streaming_apis self).
Proof.
  unfold BasePeonyClient.__getitem__. intros Hp.
  destruct (BasePeonyClient.resolve self values)
    as [[[[api version] suffix] base_url]| |]; simpl in Hp; try discriminate.
  destruct (BasePeonyClient.format_base_url base_url api version) as [url| |];
    simpl in Hp; try discriminate.
  exists api, version, suffix, base_url. split; [reflexivity|].
  destruct api as [| | |s| | | |]; simpl in Hp; try discriminate;
    try (injection Hp as <-; split; [reflexivity|];
         split; [discriminate | intros (s & Hs & _); discriminate]).
  destruct (bool_decide (s ∈ BasePeonyClient.streaming_apis self)) eqn:Hin;
    injection Hp as <-; (split; [reflexivity|]); simpl.
  - apply bool_decide_eq_true in Hin. split; [|reflexivity].
    intros _. exists s. split; [reflexivity | exact Hin].
  - apply bool_decide_eq_false in Hin. split; [discriminate|].
    intros (s' & Hs' & Hin'). injection Hs' as <-. contradiction.
Qed.

(** X10.  Overrides past the fourth are ignored, and a list and a tuple
    of the same overrides are accessed alike. *)
Theorem getitem_extra_overrides_ignored (xs : list pyval) :
  (4 <= length xs)%nat ->
  BasePeonyClient.__getitem__ self (PList xs)
  = BasePeonyClient.__getitem__ self (PList (take 4 xs))
  /\ BasePeonyClient.__getitem__ self (PTuple xs)
     = BasePeonyClient.__getitem__ self (PList xs).
Proof.
  intros Hlen.
  destruct xs as [|a [|b [|c [|d rest]]]]; simpl in Hlen; try lia.
  unfold BasePeonyClient.__getitem__, BasePeonyClient.resolve.
  assert (Hxs : a :: b :: c :: d :: rest <> []) by discriminate.
  destruct (sequence_rebound (a :: b :: c :: d :: rest) Hxs) as [-> ->].
  assert (Hfour : [a; b; c; d] <> []) by discriminate.
  destruct (sequence_rebound [a; b; c; d] Hfour) as [Hcut _].
  change (take 4 (a :: b :: c :: d :: rest)) with [a; b; c; d].
  rewrite Hcut.
  unfold BasePeonyClient.fill, BasePeonyClient.defaults.
  rewrite !zip_pad_positions. split; reflexivity.
Qed.

(** X11.  Where the client has a version, a suffix and a base URL, the
    access by a name and the access by the one-element list or tuple of
    that name are the same. *)
Theorem getitem_name_as_sequence (name : string) :
  is_none (BasePeonyClient.api_version self) = false ->
  is_none (BasePeonyClient._suffix self) = false ->
  is_none (BasePeonyClient.base_url self) = false ->
  BasePeonyClient.__getitem__ self (PList [PStr name])
  = BasePeonyClient.__getitem__ self (PStr name)
  /\ BasePeonyClient.__getitem__ self (PTuple [PStr name])
     = BasePeonyClient.__getitem__ self (PStr name).
Proof.
  intros Hversion Hsuffix Hbase.
  assert (Hfill : BasePeonyClient.fill (BasePeonyClient.pad [PStr name])
                    (BasePeonyClient.defaults self)
                  = PStr name :: tail (BasePeonyClient.defaults self)).
  { unfold BasePeonyClient.defaults.
    change (BasePeonyClient.pad [PStr name]) with [PStr name; PNone; PNone; PNone].
    rewrite fill_positions; [reflexivity | reflexivity | | |]; assumption. }
  unfold BasePeonyClient.__getitem__, BasePeonyClient.resolve.
  assert (Hone : [PStr name] <> []) by discriminate.
  destruct (sequence_rebound [PStr name] Hone) as [-> ->].
  rewrite Hfill. split; reflexivity.
Qed.

Lemma resolve_position_without_value (xs : list pyval) (i : nat) :
  xs <> [] ->
  (i < 4)%nat ->
  is_none (BasePeonyClient.chosen self xs i) = true ->
  BasePeonyClient.resolve self (PList xs) = Raise ValueError
  /\ BasePeonyClient.resolve self (PTuple xs) = Raise ValueError.
Proof.
  intros Hxs Hi Hnone.
  unfold BasePeonyClient.resolve.
  destruct (sequence_rebound xs Hxs) as [-> ->]. simpl.
  rewrite unpack_wrong_length; [split; reflexivity|].
  unfold BasePeonyClient.fill, BasePeonyClient.defaults.
  rewrite length_fmap, zip_pad_positions.
  pose proof (filter_drops_one
    (fun vd : pyval * pyval => negb (is_none (fst vd) && is_none (snd vd)))
    [(nth 0 xs PNone, PNone);
     (nth 1 xs PNone, BasePeonyClient.api_version self);
     (nth 2 xs PNone, BasePeonyClient._suffix self);
     (nth 3 xs PNone, BasePeonyClient.base_url self)]
    (nth i xs PNone, nth i (BasePeonyClient.defaults self) PNone)) as Hdrop.
  simpl length in Hdrop.
  assert (Hshort : (length (List.filter
            (fun vd : pyval * pyval => negb (is_none (fst vd) && is_none (snd vd)))
            [(nth 0 xs PNone, PNone);
             (nth 1 xs PNone, BasePeonyClient.api_version self);
             (nth 2 xs PNone, BasePeonyClient._suffix self);
             (nth 3 xs PNone, BasePeonyClient.base_url self)]) < 4)%nat);
    [|lia].
  apply Hdrop.
  - destruct i as [|[|[|[|i]]]]; simpl; try lia; auto.
  - unfold BasePeonyClient.chosen in Hnone. cbn [fst snd].
    revert Hnone.
    destruct (is_none (nth i xs PNone)) eqn:Hx; intros Hnone.
    + rewrite Hnone. reflexivity.
    + congruence.
Qed.

(** X12.  A position that has neither an override other than [None] nor
    a default other than [None] — the [api] whenever it is not given —
    makes the access by a list or a tuple fail with [ValueError]. *)
Theorem getitem_position_without_value (xs : list pyval) (i : nat) :
  xs <> [] ->
  (i < 4)%nat ->
  is_none (BasePeonyClient.chosen self xs i) = true ->
  BasePeonyClient.__getitem__ self (PList xs) = Raise ValueError
  /\ BasePeonyClient.__getitem__ self (PTuple xs) = Raise ValueError.
Proof.
  intros Hxs Hi Hnone.
  destruct (resolve_position_without_value xs i Hxs Hi Hnone) as [Hlist Htuple].
  unfold BasePeonyClient.__getitem__. rewrite Hlist, Htuple. split; reflexivity.
Qed.

(** X13.  [None], a bool or an int as the access argument raises
    [TypeError]. *)
Theorem getitem_scalar_rejected (b : bool) (n : Z) :
  BasePeonyClient.__getitem__ self PNone = Raise TypeError
  /\ BasePeonyClient.__getitem__ self (PBool b) = Raise TypeError
  /\ BasePeonyClient.__getitem__ self (PInt n) = Raise TypeError.
Proof.
  split; [reflexivity|]. split.
  - destruct b; reflexivity.
  - unfold BasePeonyClient.__getitem__, BasePeonyClient.resolve,
      BasePeonyClient.rebind. simpl.
    destruct (Z.eqb n 0); reflexivity.
Qed.

End getitem_further_properties.

(** ** The base URL and its trailing slashes *)

Lemma rstrip_app_char (c : ascii) (s : string) :
  rstrip c (s +:+ String c EmptyString) = rstrip c s.
Proof.
  induction s as [|a rest IH]; simpl.
  - rewrite Ascii.eqb_refl. reflexivity.
  - rewrite IH. reflexivity.
Qed.

Lemma rstrip_idempotent (c : ascii) (s : string) :
  rstrip c (rstrip c s) = rstrip c s.
Proof.
  induction s as [|a rest IH]; [reflexivity|].
  simpl. destruct (rstrip c rest) as [|k kept] eqn:Hrest.
  - destruct (Ascii.eqb a c) eqn:Hac; [reflexivity|].
    simpl. rewrite Hac. reflexivity.
  - change (rstrip c (String a (String k kept)))
      with (match rstrip c (String k kept) with
            | EmptyString => if Ascii.eqb a c then EmptyString
                             else String a EmptyString
            | String k' kept' => String a (String k' kept')
            end).
    rewrite IH. reflexivity.
Qed.

Lemma string_app_assoc (s t u : string) : (s +:+ t) +:+ u = s +:+ (t +:+ u).
Proof.
  induction s as [|a s IH]; [reflexivity|].
  change (String a ((s +:+ t) +:+ u) = String a (s +:+ (t +:+ u))).
  rewrite IH. reflexivity.
Qed.

(** A character that is no brace, put after a template, comes out after
    the formatted text. *)
Lemma format_from_app_char (api version : pyval) (c : ascii) :
  is_brace c = false ->
  forall (n : nat) (t : string), (String.length t <= n)%nat ->
  forall field out,
    format_from api version field t = Ok out ->
    format_from api version field (t +:+ String c EmptyString)
    = Ok (out +:+ String c EmptyString).
Proof.
  intros Hc. unfold is_brace in Hc. apply orb_false_elim in Hc as [Hopen Hclose].
  induction n as [|n IH]; intros t Hlen field out Hout.
  - destruct t; simpl in Hlen; [|lia].
    destruct field; simpl in Hout; [discriminate|]. injection Hout as <-.
    simpl. rewrite Hopen, Hclose. reflexivity.
  - destruct t as [|a rest].
    + destruct field; simpl in Hout; [discriminate|]. injection Hout as <-.
      simpl. rewrite Hopen, Hclose. reflexivity.
    + simpl in Hlen. destruct field as [name|]; simpl in Hout |- *.
      * destruct (Ascii.eqb a "}").
        -- destruct (render_field api version name) as [text| |];
             simpl in Hout |- *; try discriminate.
           destruct (format_from api version None rest) as [out'| |] eqn:Hrest;
             simpl in Hout; try discriminate.
           injection Hout as <-.
           rewrite (IH rest ltac:(lia) None out' Hrest). simpl.
           rewrite string_app_assoc. reflexivity.
        -- destruct (Ascii.eqb a "{"); [discriminate|].
           destruct (special a); [discriminate|].
           exact (IH rest ltac:(lia) _ out Hout).
      * destruct (Ascii.eqb a "{").
        -- destruct rest as [|b rest']; [discriminate|]. simpl in Hlen |- *.
           destruct (Ascii.eqb b "{") eqn:Hb.
           ++ destruct (format_from api version None rest') as [out'| |] eqn:Hrest;
                simpl in Hout; try discriminate.
              injection Hout as <-.
              rewrite (IH rest' ltac:(lia) None out' Hrest). reflexivity.
           ++ pose proof (IH (String b rest') ltac:(simpl; lia) (Some "") out)
                as Happ.
              simpl in Happ. rewrite Hb in Happ.
              simpl in Hout. rewrite Hb in Hout. exact (Happ Hout).
        -- destruct (Ascii.eqb a "}").
           ++ destruct rest as [|b rest']; [discriminate|]. simpl in Hlen |- *.
              destruct (Ascii.eqb b "}"); [|discriminate].
              destruct (format_from api version None rest') as [out'| |] eqn:Hrest;
                simpl in Hout; try discriminate.
              injection Hout as <-.
              rewrite (IH rest' ltac:(lia) None out' Hrest). reflexivity.
           ++ destruct (format_from api version None rest) as [out'| |] eqn:Hrest;
                simpl in Hout; try discriminate.
              injection Hout as <-.
              rewrite (IH rest ltac:(lia) None out' Hrest). reflexivity.
Qed.

(** X14.  A slash put at the end of a base URL template changes nothing
    in the base URL made from it, which is itself left as it is by
    another stripping and does not end with a slash. *)
Theorem format_base_url_trailing_slash (template : string)
    (api version : pyval) (url : string) :
  BasePeonyClient.format_base_url (PStr template) api version = Ok url ->
  BasePeonyClient.format_base_url (PStr (template +:+ "/")) api version = Ok url
  /\ rstrip "/" url = url
  /\ endswith url "/" = false.
Proof.
  unfold BasePeonyClient.format_base_url, format.
  destruct (format_from api version None template) as [text| |] eqn:Htext;
    simpl; try discriminate.
  intros Hurl. injection Hurl as <-.
  split; [|split].
  - rewrite (format_from_app_char api version "/" eq_refl
               (String.length template) template (le_n _) None text Htext).
    simpl. rewrite rstrip_app_char. reflexivity.
  - apply rstrip_idempotent.
  - apply rstrip_not_endswith.
Qed.

(** ** The request pipeline: failures, and reading the envelope *)
Section request_further_properties.
Variable session_request : pyval -> result ClientResponse.t.
Variable throw : ClientResponse.t -> exn.
Variable self : BasePeonyClient.t.

Lemma status_2xx (status : Z) :
  Z.eqb (status / 100) 2 = true <-> 200 <= status < 300.
Proof.
  rewrite Z.eqb_eq.
  pose proof (Z.div_mod status 100 ltac:(lia)) as Hdiv.
  pose proof (Z.mod_pos_bound status 100 ltac:(lia)) as Hmod.
  lia.
Qed.

(** X15.  A response whose status is not from 200 to 299 never becomes
    an envelope: the request raises what [throw] makes of the response,
    whatever the [json] flag and the URL; and on a 2xx response a
    failure to read or decode the body is raised as it is. *)
Theorem request_failures (method url : string)
    (headers json kwargs req_kwargs : pyval) (response : ClientResponse.t) :
  BasePeonyClient.prepare_request self method url headers kwargs = Ok req_kwargs ->
  session_request req_kwargs = Ok response ->
  let answer :=
    BasePeonyClient.request session_request throw self method url headers
      json kwargs in
  (~ 200 <= ClientResponse.status response < 300 ->
   answer = Raise (throw response))
  /\ (200 <= ClientResponse.status response < 300 ->
      forall e,
        (if BasePeonyClient.decodes_json url json
         then ClientResponse.json response (BasePeonyClient._loads self)
         else ClientResponse.text response) = Raise e ->
        answer = Raise e).
Proof.
  intros Hreq Hresp answer. subst answer.
  unfold BasePeonyClient.request. rewrite Hreq. simpl. rewrite Hresp. simpl.
  split.
  - intros Hstatus.
    destruct (Z.eqb (ClientResponse.status response / 100) 2) eqn:H2xx;
      [|reflexivity].
    apply status_2xx in H2xx. contradiction.
  - intros Hstatus e Hbody.
    apply status_2xx in Hstatus. rewrite Hstatus, Hbody. reflexivity.
Qed.

(** X16.  What a successful request returns reads as the content it
    wraps: indexing it, its length and iterating over it are those of
    the decoded body or the body text, and its [url], [headers] and
    [request] are the response's URL and headers and the prepared
    request. *)
Theorem request_envelope_reads_content (method url : string)
    (headers json kwargs req_kwargs content key : pyval)
    (response : ClientResponse.t) :
  BasePeonyClient.prepare_request self method url headers kwargs = Ok req_kwargs ->
  session_request req_kwargs = Ok response ->
  200 <= ClientResponse.status response < 300 ->
  (if BasePeonyClient.decodes_json url json
   then ClientResponse.json response (BasePeonyClient._loads self)
   else ClientResponse.text response) = Ok content ->
  exists envelope,
    BasePeonyClient.request session_request throw self method url headers
      json kwargs = Ok envelope
    /\ PeonyResponse.__getitem__ envelope key = getitem content key
    /\ PeonyResponse.__len__ envelope = len content
    /\ PeonyResponse.__iter__ envelope = iterate content
    /\ PeonyResponse.getattr envelope "url" = Ok (ClientResponse.url response)
    /\ PeonyResponse.getattr envelope "headers"
       = Ok (ClientResponse.headers response)
    /\ PeonyResponse.getattr envelope "request" = Ok req_kwargs.
Proof.
  intros Hreq Hresp Hstatus Hbody.
  apply status_2xx in Hstatus.
  eexists. split.
  - unfold BasePeonyClient.request. rewrite Hreq. simpl. rewrite Hresp. simpl.
    rewrite Hstatus, Hbody. reflexivity.
  - unfold PeonyResponse.__getitem__, PeonyResponse.__len__,
      PeonyResponse.__iter__.
    rewrite init_response. simpl.
    repeat split; unfold PeonyResponse.getattr, PeonyResponse.__init__;
      by simplify_map_eq.
Qed.

End request_further_properties.

(** ** Constructing a client *)

(** X17.  A client is never constructed without a base URL or an API
    version — [None] for either falls back on the constant — but it
    keeps the suffix it is given: with [None] for it, [client[name]]
    still resolves, to that [None], while the access by the list of the
    name fails with [ValueError]. *)
Theorem init_fallbacks (general_streaming_apis : gset string)
    (twitter_base_api_url twitter_api_version : string)
    (streaming_apis : option (gset string))
    (base_url api_version suffix : pyval)
    (loads : string -> result pyval)
    (prepare_request : string -> string -> pyval -> pyval -> result pyval)
    (name : string) :
  let self :=
    BasePeonyClient.__init__ general_streaming_apis twitter_base_api_url
      twitter_api_version streaming_apis base_url api_version suffix loads
      prepare_request in
  is_none (BasePeonyClient.base_url self) = false
  /\ is_none (BasePeonyClient.api_version self) = false
  /\ BasePeonyClient.resolve self (PStr name)
     = Ok (PStr name, BasePeonyClient.api_version self, suffix,
           BasePeonyClient.base_url self)
  /\ (is_none suffix = true ->
      BasePeonyClient.__getitem__ self (PList [PStr name]) = Raise ValueError)
  /\ (is_none suffix = false ->
      BasePeonyClient.resolve self (PList [PStr name])
      = Ok (PStr name, BasePeonyClient.api_version self, suffix,
            BasePeonyClient.base_url self)).
Proof.
  intros self.
  assert (Hbase : is_none (BasePeonyClient.base_url self) = false).
  { subst self. simpl. destruct (is_none base_url) eqn:Hb; [reflexivity | exact Hb]. }
  assert (Hversion : is_none (BasePeonyClient.api_version self) = false).
  { subst self. simpl.
    destruct (is_none api_version) eqn:Hv; [reflexivity | exact Hv]. }
  split; [exact Hbase|]. split; [exact Hversion|]. split; [reflexivity|]. split.
  - intros Hsuffix.
    destruct (resolve_position_without_value self [PStr name] 2%nat
                ltac:(discriminate) ltac:(lia) Hsuffix) as [Hlist _].
    unfold BasePeonyClient.__getitem__. rewrite Hlist. reflexivity.
  - intros Hsuffix.
    unfold BasePeonyClient.resolve.
    assert (Hone : [PStr name] <> []) by discriminate.
    destruct (sequence_rebound self [PStr name] Hone) as [-> _].
    unfold BasePeonyClient.defaults.
    change (BasePeonyClient.pad [PStr name]) with [PStr name; PNone; PNone; PNone].
    rewrite fill_positions; [reflexivity | reflexivity | | |]; assumption.
Qed.

(** ** The further properties on sample inputs *)

Lemma error_handler_retries_until_outcome_witness :
  exists evs,
    error_handler (invoke fails_three_ways) true 3%nat 0%nat
    = Some ((Failed (HTTPError 404), 3%nat), evs)
    /\ invocations evs = 3%nat
    /\ slept evs = 3.
Proof.
  assert (Hretried : forall k, (k < 2)%nat ->
            retried (fst (fails_three_ways (state_after fails_three_ways k 0%nat)))
            = true).
  { intros [|[|k]] Hk; [reflexivity | reflexivity | lia]. }
  exact (error_handler_retries_until_outcome fails_three_ways 2%nat 0%nat 3%nat
           Hretried eq_refl ltac:(lia)).
Defined.

Lemma error_handler_never_gives_up_witness :
  error_handler (invoke always_times_out) true 1000%nat 0%nat = None.
Proof.
  apply (error_handler_never_gives_up always_times_out 1000%nat 0%nat).
  intros k. reflexivity.
Defined.

Lemma error_handler_timeouts_do_not_sleep_witness :
  exists evs,
    error_handler (invoke times_out_twice) true 3%nat 0%nat
    = Some ((Returned 42, 3%nat), evs)
    /\ printed evs = ["Request timed out, retrying"; "Request timed out, retrying"]
    /\ slept evs = 0.
Proof.
  assert (Htimeouts : forall k, (k < 2)%nat ->
            fst (times_out_twice (state_after times_out_twice k 0%nat))
            = TimeoutError).
  { intros [|[|k]] Hk; [reflexivity | reflexivity | lia]. }
  exact (error_handler_timeouts_do_not_sleep times_out_twice 2%nat 0%nat 3%nat
           Htimeouts eq_refl ltac:(lia)).
Defined.

Lemma error_handler_outcome_is_final_witness :
  retried (Returned 42 : outcome Z exn) = false
  /\ exists N : nat,
       (N < 3)%nat
       /\ invocations
            [Invoked; Printed "Request timed out, retrying";
             Invoked; Printed "Request timed out, retrying";
             Invoked : event] = S N
       /\ times_out_twice (state_after times_out_twice N 0%nat)
          = (Returned 42, 3%nat)
       /\ forall k, (k < N)%nat ->
            retried (fst (times_out_twice (state_after times_out_twice k 0%nat)))
            = true.
Proof.
  exact (error_handler_outcome_is_final times_out_twice 3%nat 0%nat
           (Returned 42) 3%nat _ eq_refl).
Defined.

Lemma JSONObject_update_gets_through_witness :
  let updated :=
    JSONObject.serve [("id", PInt 7); ("lang", PStr "en")]
      (JSONObject.Update "id" (PInt 8)) in
  fst updated = Ok PNone
  /\ JSONObject.serve (snd updated) (JSONObject.GetItem "id")
     = (Ok (PInt 8), snd updated)
  /\ JSONObject.serve (snd updated) (JSONObject.GetAttr "id")
     = (Ok (PInt 8), snd updated)
  /\ dict_get (snd updated) "lang"
     = dict_get [("id", PInt 7); ("lang", PStr "en")] "lang".
Proof.
  apply (JSONObject_update_gets_through [("id", PInt 7); ("lang", PStr "en")]
           "id" "lang" (PInt 8)).
  - reflexivity.
  - apply (bool_decide_unpack _). vm_compute. exact I.
  - discriminate.
Defined.

Lemma envelope_of_json_object_witness :
  let envelope :=
    PeonyResponse.__init__ (PDict [("id", PInt 7); ("url", PStr "t.co")])
      (PDict []) (PStr "https://api.twitter.com/1.1/x.json") (PDict []) in
  PeonyResponse.__getitem__ envelope (PStr "url") = Ok (PStr "t.co")
  /\ PeonyResponse.getattr envelope "url"
     = Ok (PStr "https://api.twitter.com/1.1/x.json")
  /\ PeonyResponse.getattr envelope "id" = Ok (PInt 7).
Proof.
  destruct (envelope_of_json_object [("id", PInt 7); ("url", PStr "t.co")]
              (PDict []) (PStr "https://api.twitter.com/1.1/x.json") (PDict [])
              "url" (PStr "t.co") eq_refl eq_refl
              ltac:(apply (bool_decide_unpack _); vm_compute; exact I))
    as (Hitem & _ & _ & _ & Hurl & _).
  destruct (envelope_of_json_object [("id", PInt 7); ("url", PStr "t.co")]
              (PDict []) (PStr "https://api.twitter.com/1.1/x.json") (PDict [])
              "id" (PInt 7) eq_refl eq_refl
              ltac:(apply (bool_decide_unpack _); vm_compute; exact I))
    as (_ & Hid & _).
  split; [exact Hitem|]. split; [exact (Hurl eq_refl)|].
  apply Hid. apply (bool_decide_unpack _). vm_compute. exact I.
Defined.

Lemma get_args_skips_leading_witness :
  let func := {| co_argcount := 3; co_varnames := ["self"; "a"; "b"; "tmp"] |} in
  get_args func 1 = ["a"; "b"]
  /\ get_args func 0 = ["self"; "a"; "b"]
  /\ get_args func 7 = [].
Proof.
  intros func.
  destruct (get_args_skips_leading func 1 ltac:(lia) ltac:(simpl; lia))
    as (Hone & _).
  destruct (get_args_skips_leading func 0 ltac:(lia) ltac:(simpl; lia))
    as (Hzero & _).
  destruct (get_args_skips_leading func 7 ltac:(lia) ltac:(simpl; lia))
    as (Hseven & _).
  split; [exact Hone|]. split; [exact Hzero | exact Hseven].
Defined.

Example get_args_negative_skip :
  get_args {| co_argcount := 2; co_varnames := ["self"; "a"; "tmp"] |} (-1) = []
  /\ get_args {| co_argcount := 2; co_varnames := ["self"; "a"; "tmp"] |} (-2)
     = ["a"].
Proof. split; reflexivity. Qed.

Lemma getitem_streaming_iff_witness :
  exists api version suffix base_url,
    BasePeonyClient.resolve sample_client (PStr "userstream")
    = Ok (api, version, suffix, base_url)
    /\ suffix_of (StreamingAPIPath ["https://userstream.twitter.com/1.1"]
                    (PStr ".json")) = suffix
    /\ (streams (StreamingAPIPath ["https://userstream.twitter.com/1.1"]
                   (PStr ".json")) = true
        <-> exists s, api = PStr s
              /\ s ∈ BasePeonyClient.streaming_apis sample_client).
Proof.
  apply (getitem_streaming_iff sample_client (PStr "userstream")).
  vm_compute. reflexivity.
Defined.

Lemma getitem_extra_overrides_ignored_witness :
  BasePeonyClient.__getitem__ sample_client
    (PList [PStr "api"; PStr "2"; PStr ".xml"; PStr "https://{api}.example.org";
            PInt 5; PStr "more"])
  = BasePeonyClient.__getitem__ sample_client
      (PList [PStr "api"; PStr "2"; PStr ".xml"; PStr "https://{api}.example.org"]).
Proof.
  destruct (getitem_extra_overrides_ignored sample_client
              [PStr "api"; PStr "2"; PStr ".xml"; PStr "https://{api}.example.org";
               PInt 5; PStr "more"] ltac:(simpl; lia)) as [Hcut _].
  exact Hcut.
Defined.

Lemma getitem_name_as_sequence_witness :
  BasePeonyClient.__getitem__ sample_client (PList [PStr "api"])
  = BasePeonyClient.__getitem__ sample_client (PStr "api")
  /\ BasePeonyClient.__getitem__ sample_client (PTuple [PStr "api"])
     = BasePeonyClient.__getitem__ sample_client (PStr "api").
Proof.
  exact (getitem_name_as_sequence sample_client "api" eq_refl eq_refl eq_refl).
Defined.

Lemma getitem_position_without_value_witness :
  BasePeonyClient.__getitem__ sample_client (PList [PNone; PStr "2"])
  = Raise ValueError
  /\ BasePeonyClient.__getitem__ sample_client (PTuple [PNone; PStr "2"])
     = Raise ValueError.
Proof.
  exact (getitem_position_without_value sample_client [PNone; PStr "2"] 0%nat
           ltac:(discriminate) ltac:(lia) eq_refl).
Defined.

Lemma format_base_url_trailing_slash_witness :
  BasePeonyClient.format_base_url (PStr "https://{api}.twitter.com/{version}/")
    (PStr "api") (PStr "1.1")
  = Ok "https://api.twitter.com/1.1"
  /\ rstrip "/" "https://api.twitter.com/1.1" = "https://api.twitter.com/1.1"
  /\ endswith "https://api.twitter.com/1.1" "/" = false.
Proof.
  exact (format_base_url_trailing_slash "https://{api}.twitter.com/{version}"
           (PStr "api") (PStr "1.1") "https://api.twitter.com/1.1" eq_refl).
Defined.

Lemma request_failures_witness :
  BasePeonyClient.request (fun _ => Ok (sample_response 404 "Not Found"))
    sample_throw sample_client "GET"
    "https://api.twitter.com/1.1/help/configuration.json"
    PNone (PBool true) (PDict [])
  = Raise (HTTPError 404).
Proof.
  destruct (request_failures
              (fun _ => Ok (sample_response 404 "Not Found")) sample_throw
              sample_client "GET"
              "https://api.twitter.com/1.1/help/configuration.json"
              PNone (PBool true) (PDict []) _ (sample_response 404 "Not Found")
              eq_refl eq_refl) as [Hstatus _].
  apply Hstatus. simpl. lia.
Defined.

Lemma request_envelope_reads_content_witness :
  exists envelope,
    BasePeonyClient.request (fun _ => Ok (sample_response 200 "{}"))
      sample_throw sample_client "GET"
      "https://api.twitter.com/1.1/help/configuration.json"
      PNone (PBool false) (PDict []) = Ok envelope
    /\ PeonyResponse.__getitem__ envelope (PStr "decoded")
       = getitem (PDict [("decoded", PStr "{}")]) (PStr "decoded")
    /\ PeonyResponse.__len__ envelope = len (PDict [("decoded", PStr "{}")])
    /\ PeonyResponse.__iter__ envelope = iterate (PDict [("decoded", PStr "{}")])
    /\ PeonyResponse.getattr envelope "url"
       = Ok (PStr "https://api.twitter.com/1.1/help/configuration.json")
    /\ PeonyResponse.getattr envelope "headers"
       = Ok (PDict [("content-type", PStr "application/json")])
    /\ PeonyResponse.getattr envelope "request"
       = Ok (PDict [("method", PStr "GET");
                    ("url", PStr "https://api.twitter.com/1.1/help/configuration.json");
                    ("headers", PNone)]).
Proof.
  exact (request_envelope_reads_content
           (fun _ => Ok (sample_response 200 "{}")) sample_throw sample_client
           "GET" "https://api.twitter.com/1.1/help/configuration.json"
           PNone (PBool false) (PDict []) _ (PDict [("decoded", PStr "{}")])
           (PStr "decoded") (sample_response 200 "{}")
           eq_refl eq_refl ltac:(simpl; lia) eq_refl).
Defined.

Lemma init_fallbacks_witness :
  let self :=
    BasePeonyClient.__init__ {["stream"]} "https://{api}.twitter.com/{version}"
      "1.1" None PNone PNone PNone sample_loads
      (fun _ _ _ _ => Ok PNone) in
  BasePeonyClient.resolve self (PStr "api")
  = Ok (PStr "api", PStr "1.1", PNone, PStr "https://{api}.twitter.com/{version}")
  /\ BasePeonyClient.__getitem__ self (PList [PStr "api"]) = Raise ValueError.
Proof.
  destruct (init_fallbacks {["stream"]} "https://{api}.twitter.com/{version}"
              "1.1" None PNone PNone PNone sample_loads
              (fun _ _ _ _ => Ok PNone) "api")
    as (_ & _ & Hname & Hlist & _).
  split; [exact Hname | exact (Hlist eq_refl)].
Defined.

(** ** Formatting the base URL: literal text, the two fields, other names *)
Section format_further_properties.
Variables api version : pyval.

Lemma string_app_nil_r (s : string) : s +:+ "" = s.
Proof.
  induction s as [|a s IH]; [reflexivity|].
  change (String a (s +:+ "") = String a s). rewrite IH. reflexivity.
Qed.

Lemma not_brace (a : ascii) :
  negb (is_brace a) = true -> Ascii.eqb a "{" = false /\ Ascii.eqb a "}" = false.
Proof.
  unfold is_brace. intros Ha. apply negb_true_iff in Ha.
  apply orb_false_elim in Ha. exact Ha.
Qed.

(** Literal text in front of a template comes out in front. *)
Lemma format_from_literal (pre rest : string) :
  brace_free pre = true ->
  format_from api version None (pre +:+ rest)
  = bind (format_from api version None rest) (fun out => Ok (pre +:+ out)).
Proof.
  induction pre as [|a pre IH]; intros Hpre.
  - change ("" +:+ rest) with rest.
    destruct (format_from api version None rest); reflexivity.
  - simpl in Hpre. apply andb_prop in Hpre as [Ha Hpre].
    destruct (not_brace a Ha) as [Hopen Hclose].
    change (String a pre +:+ rest) with (String a (pre +:+ rest)).
    simpl. rewrite Hopen, Hclose, (IH Hpre).
    destruct (format_from api version None rest); reflexivity.
Qed.

(** Inside a field, a plain name is read up to the closing brace. *)
Lemma format_from_field (name : string) : forall (acc post : string),
  plain name = true ->
  format_from api version (Some acc) (name +:+ String "}" post)
  = bind (render_field api version (acc +:+ name))
      (fun text =>
         bind (format_from api version None post)
           (fun out => Ok (text +:+ out))).
Proof.
  induction name as [|a name IH]; intros acc post Hname.
  - simpl. rewrite string_app_nil_r. reflexivity.
  - simpl in Hname. apply andb_prop in Hname as [Ha Hname].
    apply andb_prop in Ha as [Hbrace Hspecial].
    destruct (not_brace a Hbrace) as [Hopen Hclose].
    apply negb_true_iff in Hspecial.
    change (String a name +:+ String "}" post)
      with (String a (name +:+ String "}" post)).
    simpl. rewrite Hopen, Hclose, Hspecial, (IH _ _ Hname).
    rewrite string_app_assoc. reflexivity.
Qed.

(** a field right after literal text *)
Lemma format_literal_then_field (pre name post : string) :
  brace_free pre = true ->
  plain name = true ->
  format (pre +:+ String "{" (name +:+ String "}" post)) api version
  = bind (render_field api version name)
      (fun text =>
         bind (format_from api version None post)
           (fun out => Ok (pre +:+ text +:+ out))).
Proof.
  intros Hpre Hname. unfold format.
  rewrite (format_from_literal pre _ Hpre).
  assert (Hfield : format_from api version None
                     (String "{" (name +:+ String "}" post))
                   = format_from api version (Some "")
                       (name +:+ String "}" post)).
  { destruct name as [|a name]; [reflexivity|].
    simpl in Hname. apply andb_prop in Hname as [Ha _].
    apply andb_prop in Ha as [Hbrace _].
    destruct (not_brace a Hbrace) as [Hopen _].
    change (String a name +:+ String "}" post)
      with (String a (name +:+ String "}" post)).
    simpl. rewrite Hopen. reflexivity. }
  rewrite Hfield, (format_from_field name "" post Hname).
  change ("" +:+ name) with name.
  destruct (render_field api version name) as [text| |]; simpl; try reflexivity.
  destruct (format_from api version None post); reflexivity.
Qed.

(** X19.  A base URL template without braces is taken as it is, less its
    trailing slashes, whatever the [api] and the [version]. *)
Theorem format_base_url_without_fields (template : string) :
  brace_free template = true ->
  BasePeonyClient.format_base_url (PStr template) api version
  = Ok (rstrip "/" template).
Proof.
  intros Htemplate. unfold BasePeonyClient.format_base_url, format.
  rewrite <- (string_app_nil_r template) at 1.
  rewrite (format_from_literal template "" Htemplate). simpl.
  rewrite string_app_nil_r. reflexivity.
Qed.

(** X20.  A template whose first field bears a name other than [api]
    and [version], not empty and with a character in it that no number
    is written with (an ASCII character that is no digit), fails with
    [KeyError] for that name, whatever follows the field. *)
Theorem format_base_url_unknown_field (pre name post : string) :
  brace_free pre = true ->
  plain name = true ->
  name <> "" -> all_digits name = false ->
  name <> "api" -> name <> "version" ->
  BasePeonyClient.format_base_url
    (PStr (pre +:+ String "{" (name +:+ String "}" post))) api version
  = Raise (KeyError name).
Proof.
  intros Hpre Hname Hempty Hdigits Hapi Hversion.
  unfold BasePeonyClient.format_base_url.
  rewrite (format_literal_then_field pre name post Hpre Hname).
  unfold render_field, get_field.
  apply String.eqb_neq in Hempty, Hapi, Hversion.
  rewrite Hempty, Hdigits, Hapi, Hversion. reflexivity.
Qed.

(** X21.  The fields [{api}] and [{version}] are replaced by the texts of
    the two values: after literal text, the text of the value and then
    what the rest of the template formats to. *)
Theorem format_substitutes_fields (pre post text out : string) :
  brace_free pre = true ->
  format post api version = Ok out ->
  (str api = Ok text ->
   format (pre +:+ "{api}" +:+ post) api version = Ok (pre +:+ text +:+ out))
  /\ (str version = Ok text ->
      format (pre +:+ "{version}" +:+ post) api version
      = Ok (pre +:+ text +:+ out)).
Proof.
  intros Hpre Hpost. unfold format in Hpost. split; intros Htext.
  - change (pre +:+ "{api}" +:+ post)
      with (pre +:+ String "{" ("api" +:+ String "}" post)).
    rewrite (format_literal_then_field pre "api" post Hpre eq_refl).
    unfold render_field. simpl. rewrite Htext. simpl. rewrite Hpost. reflexivity.
  - change (pre +:+ "{version}" +:+ post)
      with (pre +:+ String "{" ("version" +:+ String "}" post)).
    rewrite (format_literal_then_field pre "version" post Hpre eq_refl).
    unfold render_field. simpl. rewrite Htext. simpl. rewrite Hpost. reflexivity.
Qed.

End format_further_properties.

Lemma format_base_url_without_fields_witness :
  BasePeonyClient.format_base_url (PStr "https://example.org/v2//")
    (PStr "api") PNone
  = Ok "https://example.org/v2".
Proof.
  exact (format_base_url_without_fields (PStr "api") PNone
           "https://example.org/v2//" eq_refl).
Defined.

Lemma format_base_url_unknown_field_witness :
  BasePeonyClient.format_base_url (PStr "https://{host}.twitter.com/{version}}")
    (PStr "api") (PStr "1.1")
  = Raise (KeyError "host").
Proof.
  exact (format_base_url_unknown_field (PStr "api") (PStr "1.1")
           "https://" "host" ".twitter.com/{version}}"
           eq_refl eq_refl ltac:(discriminate) eq_refl
           ltac:(discriminate) ltac:(discriminate)).
Defined.

Lemma format_substitutes_fields_witness :
  format "https://{api}.twitter.com/{version}" (PStr "upload") (PStr "1.1")
  = Ok "https://upload.twitter.com/1.1".
Proof.
  destruct (format_substitutes_fields (PStr "upload") (PStr "1.1")
              "https://" ".twitter.com/{version}" "upload" ".twitter.com/1.1"
              eq_refl eq_refl) as [Hapi _].
  exact (Hapi eq_refl).
Defined.

(** ** The base URL as the template with its fields replaced *)
Section template_pieces.
Variables api version : pyval.

Lemma format_from_literal_cons (a : ascii) (rest : string) :
  format_from api version None (String a rest)
  = if Ascii.eqb a "{" then
      match rest with
      | EmptyString => Raise ValueError
      | String b rest' =>
          if Ascii.eqb b "{" then
            bind (format_from api version None rest')
              (fun out => Ok (String "{" out))
          else format_from api version (Some "") rest
      end
    else if Ascii.eqb a "}" then
      match rest with
      | EmptyString => Raise ValueError
      | String b rest' =>
          if Ascii.eqb b "}" then
            bind (format_from api version None rest')
              (fun out => Ok (String "}" out))
          else Raise ValueError
      end
    else bind (format_from api version None rest) (fun out => Ok (String a out)).
Proof. destruct rest; reflexivity. Qed.

Lemma format_from_field_cons (acc : string) (a : ascii) (rest : string) :
  format_from api version (Some acc) (String a rest)
  = if Ascii.eqb a "}" then
      bind (render_field api version acc)
        (fun text =>
           bind (format_from api version None rest)
             (fun out => Ok (text +:+ out)))
    else if Ascii.eqb a "{" then Raise ValueError
    else if special a then Unmodelled
    else format_from api version (Some (acc +:+ String a "")) rest.
Proof. reflexivity. Qed.

(** A field that is rendered bears one of the two names, and its text is
    the text of the value of that name. *)
Lemma render_field_known (name text : string) :
  render_field api version name = Ok text ->
  (name = "api" \/ name = "version")
  /\ (if String.eqb name "api" then str api
      else if String.eqb name "version" then str version
      else Raise (KeyError name)) = Ok text.
Proof.
  unfold render_field, get_field.
  destruct (String.eqb name ""); [discriminate|].
  destruct (all_digits name); [discriminate|].
  destruct (String.eqb name "api") eqn:Hapi.
  - apply String.eqb_eq in Hapi. intros Htext. split; [left|]; assumption.
  - destruct (String.eqb name "version") eqn:Hversion; [|discriminate].
    apply String.eqb_eq in Hversion. intros Htext. split; [right|]; assumption.
Qed.

Lemma known_fields_literal (a : ascii) (ps : list piece) :
  known_fields ps -> known_fields (Literal a :: ps).
Proof.
  intros Hps name Hin. apply elem_of_cons in Hin as [Heq|Hin];
    [discriminate | exact (Hps name Hin)].
Qed.

Lemma known_fields_field (name : string) (ps : list piece) :
  name = "api" \/ name = "version" ->
  known_fields ps -> known_fields (Field name :: ps).
Proof.
  intros Hname Hps name' Hin. apply elem_of_cons in Hin as [Heq|Hin].
  - injection Heq as ->. exact Hname.
  - exact (Hps name' Hin).
Qed.

(** Whatever the scanner turns into text is a template made of literal
    characters, escaped braces and fields named [api] or [version], and
    the text is those pieces with the fields replaced. *)
Lemma format_from_pieces (n : nat) : forall s : string,
  (String.length s <= n)%nat ->
  (forall out,
     format_from api version None s = Ok out ->
     exists ps,
       written ps = s /\ known_fields ps
       /\ substituted api version ps = Ok out)
  /\ (forall acc out,
       format_from api version (Some acc) s = Ok out ->
       exists tail ps,
         s = tail +:+ String "}" (written ps)
         /\ known_fields (Field (acc +:+ tail) :: ps)
         /\ substituted api version (Field (acc +:+ tail) :: ps) = Ok out).
Proof.
  induction n as [|n IH]; intros s Hlen.
  - destruct s; simpl in Hlen; [|lia]. split.
    + intros out Hout. injection Hout as <-.
      exists []. split; [reflexivity|]. split; [|reflexivity].
      intros name Hin. by apply elem_of_nil in Hin.
    + intros acc out Hout. discriminate.
  - destruct s as [|a rest].
    { split.
      - intros out Hout. injection Hout as <-.
        exists []. split; [reflexivity|]. split; [|reflexivity].
        intros name Hin. by apply elem_of_nil in Hin.
      - intros acc out Hout. discriminate. }
    simpl in Hlen.
    destruct (IH rest ltac:(lia)) as [IHtext IHfield].
    split.
    + intros out Hout. rewrite format_from_literal_cons in Hout.
      destruct (Ascii.eqb a "{") eqn:Hopen.
      * destruct rest as [|b rest']; [discriminate|].
        simpl in Hlen.
        destruct (Ascii.eqb b "{") eqn:Hb.
        -- destruct (format_from api version None rest') as [out'| |] eqn:Hrest;
             simpl in Hout; try discriminate.
           injection Hout as <-.
           destruct (IH rest' ltac:(lia)) as [IHrest _].
           destruct (IHrest out' Hrest) as (ps & Hw & Hk & Hs).
           apply Ascii.eqb_eq in Hopen, Hb. subst a b.
           exists (Literal "{" :: ps). split; [|split].
           ++ simpl. rewrite Hw. reflexivity.
           ++ exact (known_fields_literal _ _ Hk).
           ++ simpl. rewrite Hs. reflexivity.
        -- destruct (IHfield "" out Hout) as (tail & ps & Heq & Hk & Hs).
           apply Ascii.eqb_eq in Hopen. subst a.
           exists (Field tail :: ps). split; [|split].
           ++ simpl. rewrite <- Heq. reflexivity.
           ++ exact Hk.
           ++ exact Hs.
      * destruct (Ascii.eqb a "}") eqn:Hclose.
        -- destruct rest as [|b rest']; [discriminate|].
           simpl in Hlen.
           destruct (Ascii.eqb b "}") eqn:Hb; [|discriminate].
           destruct (format_from api version None rest') as [out'| |] eqn:Hrest;
             simpl in Hout; try discriminate.
           injection Hout as <-.
           destruct (IH rest' ltac:(lia)) as [IHrest _].
           destruct (IHrest out' Hrest) as (ps & Hw & Hk & Hs).
           apply Ascii.eqb_eq in Hclose, Hb. subst a b.
           exists (Literal "}" :: ps). split; [|split].
           ++ simpl. rewrite Hw. reflexivity.
           ++ exact (known_fields_literal _ _ Hk).
           ++ simpl. rewrite Hs. reflexivity.
        -- destruct (format_from api version None rest) as [out'| |] eqn:Hrest;
             simpl in Hout; try discriminate.
           injection Hout as <-.
           destruct (IHtext out' ltac:(first [exact Hrest | reflexivity]))
          as (ps & Hw & Hk & Hs).
           exists (Literal a :: ps). split; [|split].
           ++ simpl. unfold is_brace. rewrite Hopen, Hclose. simpl.
              rewrite Hw. reflexivity.
           ++ exact (known_fields_literal _ _ Hk).
           ++ simpl. rewrite Hs. reflexivity.
    + intros acc out Hout. rewrite format_from_field_cons in Hout.
      destruct (Ascii.eqb a "}") eqn:Hclose.
      * destruct (render_field api version acc) as [text| |] eqn:Htext;
          simpl in Hout; try discriminate.
        destruct (format_from api version None rest) as [out'| |] eqn:Hrest;
          simpl in Hout; try discriminate.
        injection Hout as <-.
        destruct (IHtext out' ltac:(first [exact Hrest | reflexivity]))
          as (ps & Hw & Hk & Hs).
        destruct (render_field_known acc text Htext) as [Hname Hvalue].
        apply Ascii.eqb_eq in Hclose. subst a.
        exists "", ps. rewrite string_app_nil_r. split; [|split].
        -- rewrite Hw. reflexivity.
        -- exact (known_fields_field _ _ Hname Hk).
        -- simpl. rewrite Hvalue. simpl. rewrite Hs. reflexivity.
      * destruct (Ascii.eqb a "{"); [discriminate|].
        destruct (special a); [discriminate|].
        destruct (IHfield _ out Hout) as (tail & ps & Heq & Hk & Hs).
        rewrite string_app_assoc in Hk, Hs.
        exists (String a tail), ps. split; [|split].
        -- rewrite Heq. reflexivity.
        -- exact Hk.
        -- exact Hs.
Qed.

End template_pieces.

(** C8.  Whenever an access yields a path object, the base-url template
    it was made from consists of literal text and of fields named [api]
    or [version] and no others, and the base URL is that template with
    every one of its fields replaced by the text of the value, less the
    trailing slashes: no placeholder of the template is left, and the
    URL does not end with a slash. *)
Theorem getitem_base_url_substituted (self : BasePeonyClient.t)
    (values : pyval) (p : BaseAPIPath) :
  BasePeonyClient.__getitem__ self values = Ok p ->
  exists api version suffix template url ps,
    BasePeonyClient.resolve self values = Ok (api, version, suffix, PStr template)
    /\ written ps = template
    /\ known_fields ps
    /\ substituted api version ps = Ok url
    /\ path_of p = [rstrip "/" url]
    /\ endswith (rstrip "/" url) "/" = false.
Proof.
  unfold BasePeonyClient.__getitem__. intros Hp.
  destruct (BasePeonyClient.resolve self values)
    as [[[[api version] suffix] base_url]| |]; simpl in Hp; try discriminate.
  destruct base_url as [| | |template| | | |]; simpl in Hp; try discriminate.
  destruct (format template api version) as [url| |] eqn:Hurl;
    simpl in Hp; try discriminate.
  destruct (format_from_pieces api version (String.length template) template
              (le_n _)) as [Hpieces _].
  destruct (Hpieces url Hurl) as (ps & Hwritten & Hknown & Hsubstituted).
  exists api, version, suffix, template, url, ps.
  split; [reflexivity|]. split; [exact Hwritten|]. split; [exact Hknown|].
  split; [exact Hsubstituted|]. split.
  - destruct (BasePeonyClient.is_streaming self api) as [[|]| |];
      simpl in Hp; try discriminate; injection Hp as <-; reflexivity.
  - apply rstrip_not_endswith.
Qed.

Lemma getitem_base_url_substituted_witness :
  exists api version suffix template url ps,
    BasePeonyClient.resolve sample_client (PStr "api")
    = Ok (api, version, suffix, PStr template)
    /\ written ps = template
    /\ known_fields ps
    /\ substituted api version ps = Ok url
    /\ path_of (APIPath ["https://api.twitter.com/1.1"] (PStr ".json"))
       = [rstrip "/" url]
    /\ endswith (rstrip "/" url) "/" = false.
Proof.
  apply (getitem_base_url_substituted sample_client (PStr "api")).
  vm_compute. reflexivity.
Defined.

Example template_of_twitter :
  written [Literal "h"; Literal "t"; Literal "t"; Literal "p"; Literal ":";
           Literal "/"; Literal "/"; Field "api"; Literal "."; Literal "t";
           Literal "w"; Literal "/"; Field "version"; Literal "/";
           Literal "{"; Literal "x"; Literal "}"]
  = "http://{api}.tw/{version}/{{x}}"
  /\ substituted (PStr "upload") (PInt 2)
       [Literal "h"; Literal "t"; Literal "t"; Literal "p"; Literal ":";
        Literal "/"; Literal "/"; Field "api"; Literal "."; Literal "t";
        Literal "w"; Literal "/"; Field "version"; Literal "/";
        Literal "{"; Literal "x"; Literal "}"]
     = Ok "http://upload.tw/2/{x}"
  /\ format "http://{api}.tw/{version}/{{x}}" (PStr "upload") (PInt 2)
     = Ok "http://upload.tw/2/{x}".
Proof. repeat split. Qed.
